(** * fastapi-probe-demo: probe state machine, peer discovery and the
      environment dump of [app/main.py], embedded in Rocq.

    The development follows the layout of the Python module:
    - [Py]        the few Python built-ins the module relies on
                  ([round], [sorted], [str.upper], [in], slicing, [or]);
    - [Discovery] [_discover_via_dns], [_discover_via_k8s_api],
                  [_fetch_peer_pods], [get_peer_pods];
    - [Info]      the environment-variable rows of [/info];
    - [Probe]     the globals [READY] / [HEALTHY] and the HTTP handlers;
    - [App]       the route table and runs of timestamped requests;
    - [Boot]      the configuration read from the environment at import;
    - [Stress]    the busy loop of [/stress].

    Conventions.
    - A Python [str] is a Rocq [string], one [ascii] per character: the
      characters are the code points 0 to 255, compared as Python compares
      code points.  Characters beyond 255 that occur in the module's own
      markup (the bullets of the mask, the dash) stand as their UTF-8 bytes.
    - [time.time()] readings are exact rationals ([Q]); every handler takes
      the reading of the clock as an argument, and differences of readings
      are exact, as they are in binary64 for readings of one epoch.  Where
      the configured [int], which has no bound, meets a float
      ([STARTUP_DELAY - elapsed]) the conversion and the subtraction are
      computed as binary64 computes them, [OverflowError] included.
    - Module-level globals that handlers assign ([READY], [HEALTHY]) form the
      record [State], threaded explicitly; globals assigned once at import
      form the record [Config].
    - What the process observes from outside during one request (the
      Kubernetes API, the resolver, [os.environ], whether the worker thread
      answers within the budget) is the record [World].
    - HTML pages are kept as constructors carrying the interpolated values;
      the static markup is dropped. *)

From Stdlib Require Import ZArith QArith Qround Qabs Qpower Lia Lqa String Ascii Sorted Permutation.
From Stdlib Require OrderedTypeEx.
From stdpp Require Import base list strings pretty gmap sets sorting.

Local Open Scope Z_scope.

(* ================================================================== *)
(** * Python built-ins *)
(* ================================================================== *)

Module Py.

(** ** Exceptions and fallible computations *)

(** The exception classes the module distinguishes: [socket.gaierror],
    [asyncio.TimeoutError], the [OverflowError] of float arithmetic, and any
    other subclass of [Exception]. *)
Inductive exn : Type :=
| gaierror
| TimeoutError
| OverflowError
| OtherException (msg : string).

Inductive result (A : Type) : Type :=
| Ok (a : A)
| Raise (e : exn).
Arguments Ok {A} a.
Arguments Raise {A} e.

Definition bind {A B} (r : result A) (k : A -> result B) : result B :=
  match r with
  | Ok a => k a
  | Raise e => Raise e
  end.

(** ** Truthiness and [or] *)

(** [x or d] where [x] is [None] or a string: the empty string is falsy. *)
Definition or_str (x : option string) (d : string) : string :=
  match x with
  | Some s => if String.eqb s "" then d else s
  | None => d
  end.

(** [x or []] where [x] is [None] or a list. *)
Definition or_nil {A} (x : option (list A)) : list A :=
  match x with
  | Some l => l
  | None => []
  end.

(** [bool(l)] for a list. *)
Definition truthy {A} (l : list A) : bool :=
  match l with
  | [] => false
  | _ :: _ => true
  end.

(** ** Clock arithmetic *)

Definition Qlt_bool (x y : Q) : bool := negb (Qle_bool y x).

(** Nearest integer, ties to the even neighbour. *)
Definition round_half_even (x : Q) : Z :=
  let n := Qnum x in
  let d := Z.pos (Qden x) in
  let q := n / d in
  let r := n mod d in
  match 2 * r ?= d with
  | Lt => q
  | Gt => q + 1
  | Eq => if Z.even q then q else q + 1
  end.

(** [round(x, 1)], as a number of tenths. *)
Definition round1 (x : Q) : Z := round_half_even (x * 10)%Q.

(** [round(x, 2)], as a number of hundredths. *)
Definition round2 (x : Q) : Z := round_half_even (x * 100)%Q.

(** ** binary64 arithmetic with an [int] operand *)

(** [floor(log2 |x|)], for [x] other than zero. *)
Definition ilog2 (x : Q) : Z :=
  let k := Z.log2 (Z.abs (Qnum x)) - Z.log2 (Z.pos (Qden x)) in
  if Qle_bool (2 ^ k) (Qabs x) then k else k - 1.

(** The binary64 number nearest to [x]: 53 significant bits, ties to the
    even significand.  (The exponent range is checked where a conversion
    can leave it, in [float_of_int]; subnormal numbers are not modelled:
    they are below anything [round(x, 1)] shows.) *)
Definition fl (x : Q) : Q :=
  let r := Qred x in
  if Qeq_bool r 0 then 0%Q
  else
    let u := ilog2 r - 52 in
    Qred (inject_Z (round_half_even (r / 2 ^ u)) * 2 ^ u)%Q.

(** [float(n)] for an [int]: the nearest binary64 number, or
    [OverflowError] ("int too large to convert to float") when that would
    be [2 ** 1024] or beyond. *)
Definition float_of_int (n : Z) : result Q :=
  let v := fl (inject_Z n) in
  if Qle_bool (2 ^ 1024) (Qabs v) then Raise OverflowError else Ok v.

(** [n - x] for an [int] [n] and a float [x]: [n] is converted, then the
    difference is rounded. *)
Definition int_sub_float (n : Z) (x : Q) : result Q :=
  bind (float_of_int n) (fun d => Ok (fl (d - x))).

(** What an f-string prints for a float with one decimal, given in
    tenths: [20] prints [2.0].  (Exponent notation, which Python switches
    to from [1e16] on, is not modelled.) *)
Definition repr_tenths (t : Z) : string :=
  let a := Z.abs t in
  (if t <? 0 then "-" else "") +:+ pretty (a / 10) +:+ "." +:+ pretty (a mod 10).

(** ** Strings *)

(** The upper case of one character, as [str.upper] gives it for the code
    points 0 to 255: [a]-[z] and the accented small letters 224 to 254
    (but not the division sign 247) move down by 32, the sharp s (223)
    becomes [SS].  The capitals of the micro sign (181) and of the y with
    diaeresis (255) lie beyond 255; these two are left as they are, which
    no test against an ASCII word can tell apart. *)
Definition upper_char (c : ascii) : string :=
  let n := N_of_ascii c in
  if ((97 <=? n) && (n <=? 122))%N then String (ascii_of_N (n - 32)) EmptyString
  else if (n =? 223)%N then "SS"
  else if ((224 <=? n) && (n <=? 254) && negb (n =? 247))%N
       then String (ascii_of_N (n - 32)) EmptyString
  else String c EmptyString.

(** [s.upper()] *)
Fixpoint upper (s : string) : string :=
  match s with
  | EmptyString => EmptyString
  | String c s' => upper_char c +:+ upper s'
  end.

(** [needle in hay] for strings: [needle] occurs at some position. *)
Fixpoint contains (needle hay : string) : bool :=
  if String.prefix needle hay then true
  else match hay with
       | EmptyString => false
       | String _ hay' => contains needle hay'
       end.

(** [s[:n]] *)
Definition slice_to (n : nat) (s : string) : string := substring 0 n s.

(** Python's [<=] and [<] on strings, as relations. *)
Definition str_le (s1 s2 : string) : Prop := String.leb s1 s2 = true.
Definition str_lt (s1 s2 : string) : Prop := String.ltb s1 s2 = true.

(** ** [sorted(l, key=...)] with string keys

    Python's sort is stable; the result is the unique stable arrangement
    of [l] by [key], which insertion from the right computes. *)

Section Sorted.
Context {A : Type} (key : A -> string).

Fixpoint insert_sorted (x : A) (l : list A) : list A :=
  match l with
  | [] => [x]
  | y :: l' =>
      if String.leb (key x) (key y) then x :: y :: l'
      else y :: insert_sorted x l'
  end.

Definition sorted (l : list A) : list A := foldr insert_sorted [] l.

(** The order [sorted] arranges by. *)
Definition key_le (x y : A) : Prop := str_le (key x) (key y).
End Sorted.

End Py.

Notation "x <- r ;; k" := (Py.bind r (fun x => k))
  (at level 100, r at next level, right associativity, only parsing).

(* ================================================================== *)
(** * Configuration, mutable globals and the outside world *)
(* ================================================================== *)

(** Globals assigned once, when the module is imported. *)
Record Config : Type := {
  APP_START_TIME : Q;
  STARTUP_DELAY : Z;
  POD_NAME : string;
  NAMESPACE : string;
  NODE_NAME : string;
  APP_VERSION : string;
  HEADLESS_SVC : string;
  SERVICE_NAME : string;
  K8S_AVAILABLE : bool
}.

(** Globals that handlers assign ([global READY], [global HEALTHY]). *)
Record State : Type := {
  READY : bool;
  HEALTHY : bool
}.

(** The values the module gives them at import. *)
Definition initial_state : State := {| READY := false; HEALTHY := true |}.

(** ** Kubernetes client objects (the fields the module reads)

    Fields the client may leave as [None] are options; a pod name and a
    container's restart count are always set by the API server. *)

Record V1PodCondition : Type := {
  cond_type : string;
  cond_status : string
}.

Record V1ContainerStatus : Type := {
  restart_count : Z
}.

Record V1Pod : Type := {
  metadata_name : string;
  spec_node_name : option string;
  status_pod_ip : option string;
  status_phase : option string;
  status_conditions : option (list V1PodCondition);
  status_container_statuses : option (list V1ContainerStatus)
}.

(** One entry of [socket.getaddrinfo]:
    [(family, type, proto, canonname, (ip, port))]. *)
Record addrinfo : Type := {
  ai_family : Z;
  ai_socktype : Z;
  ai_proto : Z;
  ai_canonname : string;
  ai_sockaddr : string * Z
}.

(** What one request observes of its surroundings. *)
Record World : Type := {
  (** [k8s_v1.list_namespaced_pod(namespace, label_selector, _request_timeout=2)]:
      the [items] of the answer, or the exception raised. *)
  list_namespaced_pod : string -> string -> Py.result (list V1Pod);
  (** [socket.gethostname()] *)
  gethostname : string;
  (** [socket.gethostbyname(socket.gethostname())]; the calls made while
      one request is served all have this outcome *)
  gethostbyname_self : Py.result string;
  (** [socket.getaddrinfo(host, port, AF_INET, SOCK_STREAM)] *)
  getaddrinfo : string -> Z -> Py.result (list addrinfo);
  (** whether the worker thread delivers the outcome of [_fetch_peer_pods]
      before [asyncio.wait_for(..., timeout=3.0)] gives up *)
  within_timeout : bool;
  (** [os.environ] *)
  environ : gmap string string
}.

(** The same surroundings with another environment. *)
Definition with_environ (w : World) (environ' : gmap string string) : World :=
  {| list_namespaced_pod := list_namespaced_pod w;
     gethostname := gethostname w;
     gethostbyname_self := gethostbyname_self w;
     getaddrinfo := getaddrinfo w;
     within_timeout := within_timeout w;
     environ := environ' |}.

(* ================================================================== *)
(** * Peer discovery *)
(* ================================================================== *)

(** The dictionaries appended to [peers]; one field per key. *)
Record Peer : Type := {
  peer_name : string;
  peer_ip : string;
  peer_node : string;
  peer_phase : option string;
  peer_ready : bool;
  peer_restarts : Z;
  peer_is_self : bool
}.

Module Discovery.
Import Py.

(** [f"{HEADLESS_SVC}.{NAMESPACE}.svc.cluster.local"] *)
Definition dns_name (cfg : Config) : string :=
  HEADLESS_SVC cfg +:+ "." +:+ NAMESPACE cfg +:+ ".svc.cluster.local".

(** The dictionary built for one address. *)
Definition dns_peer (my_ip ip : string) : Peer :=
  {| peer_name := ip;
     peer_ip := ip;
     peer_node := "—";
     peer_phase := Some "Running";
     peer_ready := true;
     peer_restarts := 0;
     peer_is_self := String.eqb ip my_ip |}.

(** One turn of the loop over the resolver's answer; the loop state is
    [(seen, peers)]. *)
Definition dns_loop_body (my_ip : string)
    (st : gset string * list Peer) (r : addrinfo) : gset string * list Peer :=
  let '(seen, peers) := st in
  let ip := fst (ai_sockaddr r) in
  if decide (ip ∈ seen) then (seen, peers)
  else ({[ ip ]} ∪ seen, peers ++ [dns_peer my_ip ip]).

Definition dns_loop (my_ip : string) (results : list addrinfo)
  : gset string * list Peer :=
  foldl (dns_loop_body my_ip) (∅, []) results.

(** The addresses of a resolver answer, in order. *)
Definition addresses (results : list addrinfo) : list string :=
  map (fun r => fst (ai_sockaddr r)) results.

(** [my_ip] is resolved before the [try]; inside it only
    [socket.gaierror] is caught. *)
Definition _discover_via_dns (cfg : Config) (w : World) : result (list Peer) :=
  my_ip <- gethostbyname_self w ;;
  match getaddrinfo w (dns_name cfg) 8000 with
  | Ok results =>
      let peers := snd (dns_loop my_ip results) in
      Ok (sorted peer_ip peers)
  | Raise gaierror => Ok []
  | Raise e => Raise e
  end.

(** The loop over [pod.status.conditions]. *)
Definition conditions_loop (conds : list V1PodCondition) : bool :=
  foldl (fun ready cond =>
           if String.eqb (cond_type cond) "Ready"
              && String.eqb (cond_status cond) "True"
           then true else ready)
        false conds.

(** [ready = False], then the loop when [pod.status.conditions] is
    neither [None] nor empty. *)
Definition pod_ready (pod : V1Pod) : bool :=
  let conds := or_nil (status_conditions pod) in
  if truthy conds then conditions_loop conds else false.

(** [sum(cs.restart_count for cs in ...)] *)
Definition sum_restarts (l : list V1ContainerStatus) : Z :=
  foldl (fun acc cs => acc + restart_count cs) 0 l.

(** Specification side: "a summed restart count across all containers", by
    recursion on the list.  [sum_restarts] is compared with it below. *)
Fixpoint spec_total_restarts (l : list V1ContainerStatus) : Z :=
  match l with
  | [] => 0
  | cs :: l' => restart_count cs + spec_total_restarts l'
  end.

(** The dictionary built for one pod. *)
Definition k8s_peer (my_ip : string) (pod : V1Pod) : Peer :=
  let pod_ip := or_str (status_pod_ip pod) "pending" in
  {| peer_name := metadata_name pod;
     peer_ip := pod_ip;
     peer_node := or_str (spec_node_name pod) "unknown";
     peer_phase := status_phase pod;
     peer_ready := pod_ready pod;
     peer_restarts := sum_restarts (or_nil (status_container_statuses pod));
     peer_is_self := String.eqb pod_ip my_ip |}.

(** Everything after the availability test runs inside
    [try: ... except Exception: return []]. *)
Definition _discover_via_k8s_api (cfg : Config) (w : World) : list Peer :=
  if negb (K8S_AVAILABLE cfg) then []
  else
    let attempt :=
      pods <- list_namespaced_pod w (NAMESPACE cfg) "app=demo" ;;
      my_ip <- gethostbyname_self w ;;
      Ok (sorted peer_name (map (k8s_peer my_ip) pods)) in
    match attempt with
    | Ok peers => peers
    | Raise _ => []
    end.

Definition _fetch_peer_pods (cfg : Config) (w : World) : result (list Peer) :=
  let peers := _discover_via_k8s_api cfg w in
  if truthy peers then Ok peers
  else _discover_via_dns cfg w.

(** The outcome of awaiting the worker: its own outcome when it answers
    within the budget, [TimeoutError] otherwise. *)
Definition wait_for_fetch (cfg : Config) (w : World) : result (list Peer) :=
  if within_timeout w then _fetch_peer_pods cfg w else Raise TimeoutError.

(** [except (asyncio.TimeoutError, Exception): return []] *)
Definition get_peer_pods (cfg : Config) (w : World) : list Peer :=
  match wait_for_fetch cfg w with
  | Ok peers => peers
  | Raise _ => []
  end.

End Discovery.

(* ================================================================== *)
(** * The environment dump of [/info] *)
(* ================================================================== *)

Module Info.
Import Py.

Definition SECRET_WORDS : list string := ["SECRET"; "PASSWORD"; "TOKEN"; "KEY"].

(** [any(s in key.upper() for s in ["SECRET", "PASSWORD", "TOKEN", "KEY"])] *)
Definition is_masked (key : string) : bool :=
  existsb (fun s => contains s (upper key)) SECRET_WORDS.

(** Specification side: "name containing SECRET/PASSWORD/TOKEN/KEY,
    case-insensitive".  [word] occurs in [key] without regard to case when
    it occurs once both are written in upper case.  [is_masked] is compared
    with this reading below. *)
Definition spec_occurs_nocase (word key : string) : Prop :=
  exists pre post, upper key = pre +:+ upper word +:+ post.

Definition spec_secret_like (key : string) : Prop :=
  exists word, word ∈ SECRET_WORDS /\ spec_occurs_nocase word key.

Definition masked_row (key : string) : string :=
  "<tr><td><code>" +:+ key +:+ "</code></td><td>••••••••</td></tr>".

Definition shown_row (key value : string) : string :=
  "<tr><td><code>" +:+ key +:+ "</code></td><td><code>"
    +:+ slice_to 100 value +:+ "</code></td></tr>".

(** The text one turn of the loop appends.  [os.environ[key]] cannot fail:
    [key] is drawn from [os.environ] itself. *)
Definition env_row (environ : gmap string string) (key : string) : string :=
  if is_masked key then masked_row key
  else shown_row key (environ !!! key).

(** [sorted(os.environ)] *)
Definition sorted_keys (environ : gmap string string) : list string :=
  sorted id (elements (dom environ)).

Definition env_rows (environ : gmap string string) : string :=
  foldl (fun acc key => acc +:+ env_row environ key) "" (sorted_keys environ).

End Info.

(* ================================================================== *)
(** * Responses *)
(* ================================================================== *)

(** [render_peer_table]: the fallback card when [peers] is empty, otherwise
    the table, headed by [len(peers)], with one row per peer. *)
Inductive PeerTable : Type :=
| PeersUnavailable
| PeersTable (replicas : nat) (rows : list Peer).

Definition render_peer_table (peers : list Peer) : PeerTable :=
  if negb (Py.truthy peers) then PeersUnavailable
  else PeersTable (length peers) peers.

(** The pages, with the values their f-strings interpolate.  Durations are
    in tenths of a second (hundredths for [/stress]). *)
Inductive Body : Type :=
| UnhealthyPage (pod : string)
| LivenessPage (pod : string) (uptime : Z) (namespace : string)
| NotReadyYetPage (remaining : Z) (pod : string)
| ReadinessPage (pod : string) (delay : Z) (namespace : string)
| StartingUpPage (remaining : Z)
| StartupPage
| IndexPage (cfg : Config) (uptime : Z) (hostname ip : string) (peer_html : PeerTable)
| InfoPage (cfg : Config) (uptime : Z) (hostname ip : string)
           (healthy ready : bool) (peer_html : PeerTable) (env_rows : string)
| HealthToggledPage (css_class status pod namespace : string)
| ReadinessToggledPage (css_class status pod namespace : string)
| StressPage (pod : string) (elapsed : Z) (namespace : string)
| InternalServerError.

Record Response : Type := {
  status_code : Z;
  content : Body
}.

Definition HTMLResponse (content : Body) (status_code : Z) : Response :=
  {| status_code := status_code; content := content |}.

(** The sentence of the not-ready page that reports the remaining time. *)
Definition remaining_sentence (remaining : Z) : string :=
  "<p>Simulating startup delay... " +:+ Py.repr_tenths remaining +:+ "s remaining</p>".

(* ================================================================== *)
(** * Handlers *)
(* ================================================================== *)

Module Probe.
Import Py.

Section Handlers.
Context (cfg : Config).

(** [time.time() - APP_START_TIME] *)
Definition elapsed_at (now : Q) : Q := (now - APP_START_TIME cfg)%Q.

(** [GET /healthz] *)
Definition liveness (now : Q) (st : State) : State * Response :=
  if negb (HEALTHY st) then
    (st, HTMLResponse (UnhealthyPage (POD_NAME cfg)) 503)
  else
    let uptime := round1 (elapsed_at now) in
    (st, HTMLResponse (LivenessPage (POD_NAME cfg) uptime (NAMESPACE cfg)) 200).

(** The body of [readiness].  The comparison of a float with an [int] is
    exact; [STARTUP_DELAY - elapsed] converts the [int] first and can raise
    [OverflowError], before anything is assigned. *)
Definition readiness_body (now : Q) (st : State) : result (State * Response) :=
  let elapsed := elapsed_at now in
  if Qlt_bool elapsed (inject_Z (STARTUP_DELAY cfg)) then
    diff <- int_sub_float (STARTUP_DELAY cfg) elapsed ;;
    let remaining := round1 diff in
    Ok (st, HTMLResponse (NotReadyYetPage remaining (POD_NAME cfg)) 503)
  else
    Ok ({| READY := true; HEALTHY := HEALTHY st |},
        HTMLResponse
          (ReadinessPage (POD_NAME cfg) (STARTUP_DELAY cfg) (NAMESPACE cfg)) 200).

(** [GET /ready]: what the body returns, or, when it raises, the
    framework's 500 with the globals as they were. *)
Definition readiness (now : Q) (st : State) : State * Response :=
  match readiness_body now st with
  | Ok out => out
  | Raise _ => (st, HTMLResponse InternalServerError 500)
  end.

(** [GET /startup] *)
Definition startup (now : Q) (st : State) : State * Response :=
  let elapsed := elapsed_at now in
  if Qlt_bool elapsed 2 then
    (st, HTMLResponse (StartingUpPage (round1 (2 - elapsed)%Q)) 503)
  else
    (st, HTMLResponse StartupPage 200).

(** [GET /toggle-health] *)
Definition toggle_health (st : State) : State * Response :=
  let healthy := negb (HEALTHY st) in
  let status := if healthy then "HEALTHY" else "UNHEALTHY" in
  let css_class := if healthy then "ok" else "fail" in
  ({| READY := READY st; HEALTHY := healthy |},
   HTMLResponse (HealthToggledPage css_class status (POD_NAME cfg) (NAMESPACE cfg)) 200).

(** [GET /toggle-ready] *)
Definition toggle_ready (st : State) : State * Response :=
  let ready := negb (READY st) in
  let status := if ready then "READY" else "NOT READY" in
  let css_class := if ready then "ok" else "fail" in
  ({| READY := ready; HEALTHY := HEALTHY st |},
   HTMLResponse (ReadinessToggledPage css_class status (POD_NAME cfg) (NAMESPACE cfg)) 200).

(** [GET /]; the page interpolates [socket.gethostbyname(...)] itself,
    outside any [try]. *)
Definition index (now : Q) (w : World) : result Response :=
  let uptime := round1 (elapsed_at now) in
  let peers := Discovery.get_peer_pods cfg w in
  let peer_html := render_peer_table peers in
  ip <- gethostbyname_self w ;;
  Ok (HTMLResponse (IndexPage cfg uptime (gethostname w) ip peer_html) 200).

(** [GET /info] *)
Definition info (now : Q) (w : World) (st : State) : result Response :=
  let uptime := round1 (elapsed_at now) in
  let peers := Discovery.get_peer_pods cfg w in
  let peer_html := render_peer_table peers in
  let env_rows := Info.env_rows (environ w) in
  ip <- gethostbyname_self w ;;
  Ok (HTMLResponse
        (InfoPage cfg uptime (gethostname w) ip (HEALTHY st) (READY st)
                  peer_html env_rows) 200).

(** [GET /stress]; [finished] is the reading of the clock when the busy
    loop exits. *)
Definition stress (start finished : Q) : Response :=
  HTMLResponse (StressPage (POD_NAME cfg) (round2 (finished - start)%Q) (NAMESPACE cfg)) 200.

End Handlers.
End Probe.

(* ================================================================== *)
(** * The application: routes and runs *)
(* ================================================================== *)

Module App.
Import Py.

(** The routes, each with what the request observes of the world. *)
Inductive Request : Type :=
| GET_healthz
| GET_ready
| GET_startup
| GET_index (w : World)
| GET_info (w : World)
| GET_toggle_health
| GET_toggle_ready
| GET_stress (finished : Q).

(** An exception that escapes a handler becomes the framework's 500. *)
Definition respond (r : result Response) : Response :=
  match r with
  | Ok resp => resp
  | Raise _ => HTMLResponse InternalServerError 500
  end.

(** Serving one request that arrives when the clock reads [now]. *)
Definition handle (cfg : Config) (st : State) (ev : Q * Request) : State * Response :=
  let '(now, req) := ev in
  match req with
  | GET_healthz => Probe.liveness cfg now st
  | GET_ready => Probe.readiness cfg now st
  | GET_startup => Probe.startup cfg now st
  | GET_index w => (st, respond (Probe.index cfg now w))
  | GET_info w => (st, respond (Probe.info cfg now w st))
  | GET_toggle_health => Probe.toggle_health cfg st
  | GET_toggle_ready => Probe.toggle_ready cfg st
  | GET_stress finished => (st, Probe.stress cfg now finished)
  end.

(** Serving a sequence of requests in order: the final globals and the
    responses, in order. *)
Fixpoint run (cfg : Config) (st : State) (evs : list (Q * Request))
  : State * list Response :=
  match evs with
  | [] => (st, [])
  | ev :: evs' =>
      let '(st1, resp) := handle cfg st ev in
      let '(st2, resps) := run cfg st1 evs' in
      (st2, resp :: resps)
  end.

(** ** Observing a run *)

Definition is_healthz (req : Request) : bool :=
  match req with GET_healthz => true | _ => false end.
Definition is_ready (req : Request) : bool :=
  match req with GET_ready => true | _ => false end.
Definition is_startup (req : Request) : bool :=
  match req with GET_startup => true | _ => false end.
Definition is_toggle_health (req : Request) : bool :=
  match req with GET_toggle_health => true | _ => false end.
Definition is_toggle_ready (req : Request) : bool :=
  match req with GET_toggle_ready => true | _ => false end.

(** How many requests of a run go to the selected route. *)
Definition calls (sel : Request -> bool) (evs : list (Q * Request)) : nat :=
  length (filter (fun ev => sel (snd ev) = true) evs).

(** The status codes answered to the selected route, in order. *)
Fixpoint statuses (sel : Request -> bool)
    (evs : list (Q * Request)) (resps : list Response) : list Z :=
  match evs, resps with
  | ev :: evs', resp :: resps' =>
      if sel (snd ev) then status_code resp :: statuses sel evs' resps'
      else statuses sel evs' resps'
  | _, _ => []
  end.

(** Requests arrive in the order of their timestamps, none before [t]. *)
Fixpoint chronological (t : Q) (evs : list (Q * Request)) : Prop :=
  match evs with
  | [] => True
  | ev :: evs' => (t <= fst ev)%Q /\ chronological (fst ev) evs'
  end.

End App.

(* ================================================================== *)
(** * Sample configurations and worlds *)
(* ================================================================== *)

(** The configuration of a process started at clock reading [start] with an
    empty environment: every [os.getenv] default. *)
Definition default_config (start : Q) : Config :=
  {| APP_START_TIME := start;
     STARTUP_DELAY := 5;
     POD_NAME := "unknown-pod";
     NAMESPACE := "default";
     NODE_NAME := "unknown-node";
     APP_VERSION := "1.0.0";
     HEADLESS_SVC := "demo-headless";
     SERVICE_NAME := "demo-service";
     K8S_AVAILABLE := true |}.

(** A resolver entry for [ip], as [getaddrinfo(..., 8000, AF_INET,
    SOCK_STREAM)] returns it. *)
Definition tcp_addrinfo (ip : string) : addrinfo :=
  {| ai_family := 2; ai_socktype := 1; ai_proto := 6;
     ai_canonname := ""; ai_sockaddr := (ip, 8000) |}.

(** A running pod with one container. *)
Definition running_pod (name ip : string) (is_ready : bool) (restarts : Z) : V1Pod :=
  {| metadata_name := name;
     spec_node_name := Some "node-1";
     status_pod_ip := Some ip;
     status_phase := Some "Running";
     status_conditions :=
       Some [ {| cond_type := "Initialized"; cond_status := "True" |};
              {| cond_type := "Ready";
                 cond_status := if is_ready then "True" else "False" |} ];
     status_container_statuses := Some [ {| restart_count := restarts |} ] |}.

Definition sample_environ : gmap string string :=
  <[ "HOSTNAME" := "demo-0" ]>
    (<[ "API_TOKEN" := "s3cr3t" ]>
       (<[ "db_password" := "hunter2" ]>
          (<[ "PATH" := "/usr/local/bin:/usr/bin" ]> ∅))).

(** The same environment after the two credentials were rotated. *)
Definition rotated_environ : gmap string string :=
  <[ "API_TOKEN" := "n3w-t0k3n" ]> (<[ "db_password" := "correct horse" ]> sample_environ).

(** No RBAC: the API call is refused; the headless Service resolves to two
    pods, one listed twice. *)
Definition dns_only_world : World :=
  {| list_namespaced_pod := fun _ _ => Py.Raise (Py.OtherException "403 Forbidden");
     gethostname := "demo-0";
     gethostbyname_self := Py.Ok "10.0.0.2";
     getaddrinfo := fun _ _ =>
       Py.Ok (map tcp_addrinfo ["10.0.0.5"; "10.0.0.2"; "10.0.0.2"]);
     within_timeout := true;
     environ := sample_environ |}.

(** RBAC in place: the API lists two pods. *)
Definition k8s_world : World :=
  {| list_namespaced_pod := fun _ _ =>
       Py.Ok [ running_pod "pod-b" "10.0.0.5" false 3;
               running_pod "pod-a" "10.0.0.2" true 0 ];
     gethostname := "pod-a";
     gethostbyname_self := Py.Ok "10.0.0.2";
     getaddrinfo := fun _ _ => Py.Ok (map tcp_addrinfo ["10.0.0.9"]);
     within_timeout := true;
     environ := sample_environ |}.

(** The worker does not answer within the budget. *)
Definition hung_world : World :=
  {| list_namespaced_pod := list_namespaced_pod k8s_world;
     gethostname := "pod-a";
     gethostbyname_self := Py.Ok "10.0.0.2";
     getaddrinfo := getaddrinfo k8s_world;
     within_timeout := false;
     environ := sample_environ |}.

(** Nothing resolves: no API access and the headless name is unknown. *)
Definition isolated_world : World :=
  {| list_namespaced_pod := fun _ _ => Py.Raise (Py.OtherException "connection refused");
     gethostname := "demo-0";
     gethostbyname_self := Py.Ok "10.0.0.2";
     getaddrinfo := fun _ _ => Py.Raise Py.gaierror;
     within_timeout := true;
     environ := sample_environ |}.

(** Requests after the readiness gate of a process started at 0 with the
    default delay: a query, a toggle, a query. *)
Definition ready_toggle_ready : list (Q * App.Request) :=
  [(6%Q, App.GET_ready); (7%Q, App.GET_toggle_ready); (8%Q, App.GET_ready)].

(** Requests after the initialization window: toggles, pages and startup
    queries. *)
Definition busy_afternoon : list (Q * App.Request) :=
  [(3%Q, App.GET_toggle_health); (4%Q, App.GET_toggle_ready);
   (5%Q, App.GET_startup); (6%Q, App.GET_index hung_world);
   (7%Q, App.GET_stress 9%Q); (9%Q, App.GET_startup)].

(* ================================================================== *)
(** * Import-time configuration *)
(* ================================================================== *)

Module Boot.
Import Py.

(** [os.getenv(key, default)] *)
Definition getenv (environ : gmap string string) (key default : string) : string :=
  match environ !! key with
  | Some value => value
  | None => default
  end.

Section LoadConfig.
(** Python's [int] on a string: the number, or the exception it raises. *)
Context (int : string -> result Z).

(** The assignments of the module body, in order; [start] is the reading
    of [time.time()] and [k8s_available] the outcome of loading the
    in-cluster client.  A failing [int] aborts the import. *)
Definition load_config (environ : gmap string string) (start : Q)
    (k8s_available : bool) : result Config :=
  delay <- int (getenv environ "STARTUP_DELAY" "5") ;;
  Ok {| APP_START_TIME := start;
        STARTUP_DELAY := delay;
        POD_NAME := getenv environ "HOSTNAME" "unknown-pod";
        NAMESPACE := getenv environ "POD_NAMESPACE" "default";
        NODE_NAME := getenv environ "NODE_NAME" "unknown-node";
        APP_VERSION := getenv environ "APP_VERSION" "1.0.0";
        HEADLESS_SVC := getenv environ "HEADLESS_SVC" "demo-headless";
        SERVICE_NAME := getenv environ "SERVICE_NAME" "demo-service";
        K8S_AVAILABLE := k8s_available |}.
End LoadConfig.

End Boot.

(* ================================================================== *)
(** * The busy loop of [/stress] *)
(* ================================================================== *)

Module Stress.
Import Py.

(** [sum(i * i for i in range(n))] *)
Definition sum_squares (n : nat) : Z :=
  foldl (fun acc i => acc + Z.of_nat i * Z.of_nat i) 0 (seq 0 n).

(** [while time.time() - start < 2: x += sum(...)].  [ticks] are the
    readings that the successive calls of [time.time()] return; every test
    of the loop condition takes one.  The result is the final [x] with the
    readings left over, or [None] when the readings run out before the loop
    exits. *)
Fixpoint burn (start : Q) (x : Z) (ticks : list Q) : option (Z * list Q) :=
  match ticks with
  | [] => None
  | t :: ticks' =>
      if Qlt_bool (t - start) 2 then burn start (x + sum_squares 1000) ticks'
      else Some (x, ticks')
  end.

(** [GET /stress]: the first reading is [start], the one after the loop
    gives [elapsed]. *)
Definition stress (cfg : Config) (ticks : list Q) : option Response :=
  match ticks with
  | [] => None
  | start :: ticks1 =>
      match burn start 0 ticks1 with
      | Some (x, finished :: _) => Some (Probe.stress cfg start finished)
      | _ => None
      end
  end.

End Stress.

(** A stand-in for [int] in examples, defined on the strings they use. *)
Definition sample_int (s : string) : Py.result Z :=
  match s with
  | "5" => Py.Ok 5
  | "0" => Py.Ok 0
  | "30" => Py.Ok 30
  | _ => Py.Raise (Py.OtherException "ValueError")
  end.

(** The readings of a clock polled every 0.7 s from 10 s on. *)
Definition slow_clock : list Q := [10; 10.7; 11.4; 12.1; 12.8; 13.5]%Q.

(** The resolver of [dns_only_world] answering in another order, without
    the repetition, on another port. *)
Definition dns_shuffled_world : World :=
  {| list_namespaced_pod := list_namespaced_pod dns_only_world;
     gethostname := "demo-0";
     gethostbyname_self := Py.Ok "10.0.0.2";
     getaddrinfo := fun _ _ =>
       Py.Ok [ {| ai_family := 2; ai_socktype := 1; ai_proto := 6;
                  ai_canonname := "demo"; ai_sockaddr := ("10.0.0.2", 80) |};
               tcp_addrinfo "10.0.0.5" ];
     within_timeout := true;
     environ := sample_environ |}.

(** The API of [k8s_world] listing the same pods in the other order. *)
Definition k8s_reordered_world : World :=
  {| list_namespaced_pod := fun _ _ =>
       Py.Ok [ running_pod "pod-a" "10.0.0.2" true 0;
               running_pod "pod-b" "10.0.0.5" false 3 ];
     gethostname := "pod-a";
     gethostbyname_self := Py.Ok "10.0.0.2";
     getaddrinfo := getaddrinfo k8s_world;
     within_timeout := true;
     environ := sample_environ |}.

(** A process started at 0 that simulates a 30-second start. *)
Definition slow_config : Config :=
  {| APP_START_TIME := 0;
     STARTUP_DELAY := 30;
     POD_NAME := "slow-pod";
     NAMESPACE := "staging";
     NODE_NAME := "node-2";
     APP_VERSION := "2.0.0";
     HEADLESS_SVC := "demo-headless";
     SERVICE_NAME := "demo-service";
     K8S_AVAILABLE := false |}.

(** Toggles, a readiness query before the gate and pages, at a process with
    the default delay started at 0. *)
Definition toggles_between_queries : list (Q * App.Request) :=
  [(7%Q, App.GET_toggle_ready); (8%Q, App.GET_healthz);
   (9%Q, App.GET_toggle_ready); (10%Q, App.GET_info k8s_world);
   (11%Q, App.GET_toggle_ready); (3%Q, App.GET_ready)].

(** A process started at 0 whose [STARTUP_DELAY] was set to [2 ** 1024]
    (a 1 followed by 1024 binary zeros is a valid value of the variable). *)
Definition overflow_config : Config :=
  {| APP_START_TIME := 0;
     STARTUP_DELAY := 2 ^ 1024;
     POD_NAME := "unknown-pod";
     NAMESPACE := "default";
     NODE_NAME := "unknown-node";
     APP_VERSION := "1.0.0";
     HEADLESS_SVC := "demo-headless";
     SERVICE_NAME := "demo-service";
     K8S_AVAILABLE := true |}.

(** A process started at 0 whose [STARTUP_DELAY] is [2 ** 53 + 1], the
    first [int] that is not a binary64 number. *)
Definition long_delay_config : Config :=
  {| APP_START_TIME := 0;
     STARTUP_DELAY := 2 ^ 53 + 1;
     POD_NAME := "unknown-pod";
     NAMESPACE := "default";
     NODE_NAME := "unknown-node";
     APP_VERSION := "1.0.0";
     HEADLESS_SVC := "demo-headless";
     SERVICE_NAME := "demo-service";
     K8S_AVAILABLE := true |}.

(** The pod cannot resolve its own host name; the API and the headless
    Service would answer. *)
Definition unresolvable_world : World :=
  {| list_namespaced_pod := list_namespaced_pod k8s_world;
     gethostname := "pod-a";
     gethostbyname_self := Py.Raise Py.gaierror;
     getaddrinfo := getaddrinfo dns_only_world;
     within_timeout := true;
     environ := sample_environ |}.

(* ================================================================== *)
(** * Facts about the Python built-ins *)
(* ================================================================== *)

Section ClockFacts.

Lemma Qlt_bool_iff (x y : Q) : Py.Qlt_bool x y = true <-> (x < y)%Q.
Proof.
  unfold Py.Qlt_bool. rewrite negb_true_iff.
  split.
  - intros Hle. apply Qnot_le_lt. intros H.
    apply Qle_bool_iff in H. congruence.
  - intros Hlt. destruct (Qle_bool y x) eqn:E; [|reflexivity].
    apply Qle_bool_iff in E. exfalso. eapply Qlt_not_le; eauto.
Qed.

Lemma Qlt_bool_false_iff (x y : Q) : Py.Qlt_bool x y = false <-> (y <= x)%Q.
Proof.
  unfold Py.Qlt_bool. rewrite negb_false_iff. apply Qle_bool_iff.
Qed.

(** Rounding sees the rational, not its representation as a fraction. *)
Lemma round_half_even_Qeq (x y : Q) :
  (x == y)%Q -> Py.round_half_even x = Py.round_half_even y.
Proof.
  intros Hxy. unfold Py.round_half_even.
  pose proof (Qfloor_comp x y Hxy) as Hq.
  destruct x as [n1 d1], y as [n2 d2]; unfold Qeq in Hxy; simpl in *.
  assert (Hr1 : n1 mod Z.pos d1 = n1 - Z.pos d1 * (n1 / Z.pos d1))
    by (rewrite Z.mod_eq by lia; lia).
  assert (Hr2 : n2 mod Z.pos d2 = n2 - Z.pos d2 * (n1 / Z.pos d1))
    by (rewrite Hq; rewrite Z.mod_eq by lia; lia).
  rewrite <- Hq.
  set (q := n1 / Z.pos d1) in *.
  rewrite Hr1, Hr2.
  assert (Hc : (2 * (n1 - Z.pos d1 * q) ?= Z.pos d1)
               = (2 * (n2 - Z.pos d2 * q) ?= Z.pos d2)).
  { destruct (Z.compare_spec (2 * (n1 - Z.pos d1 * q)) (Z.pos d1)),
             (Z.compare_spec (2 * (n2 - Z.pos d2 * q)) (Z.pos d2));
      try reflexivity; exfalso; nia. }
  rewrite Hc. reflexivity.
Qed.

Example round1_ties :
  Py.round1 (1 # 4) = 2 /\ Py.round1 (3 # 4) = 8 /\ Py.round1 (7 # 3) = 23
  /\ Py.repr_tenths 20 = "2.0" /\ Py.repr_tenths 5 = "0.5"
  /\ Py.repr_tenths 123 = "12.3".
Proof. repeat split; reflexivity. Qed.

Lemma round1_Qeq (x y : Q) : (x == y)%Q -> Py.round1 x = Py.round1 y.
Proof.
  intros H. unfold Py.round1. apply round_half_even_Qeq. rewrite H. reflexivity.
Qed.

(** ** binary64 *)

Lemma round_half_even_inject_Z (z : Z) : Py.round_half_even (inject_Z z) = z.
Proof.
  unfold Py.round_half_even, inject_Z. simpl.
  rewrite Z.div_1_r, Z.mod_1_r. reflexivity.
Qed.

Lemma Qred_inject_Z (z : Z) : Qred (inject_Z z) = inject_Z z.
Proof.
  unfold Qred, inject_Z.
  pose proof (Z.ggcd_gcd z 1) as Hg.
  pose proof (Z.ggcd_correct_divisors z 1) as Hd.
  destruct (Z.ggcd z 1) as [g [a b]]. simpl in *.
  rewrite Z.gcd_1_r in Hg. subst g. destruct Hd as [Ha Hb].
  replace a with z by lia. replace b with 1 by lia. reflexivity.
Qed.

(** Rounding to binary64 sees the rational, not its representation. *)
Lemma fl_Qeq (x y : Q) : (x == y)%Q -> Py.fl x = Py.fl y.
Proof. intros H. unfold Py.fl. rewrite (Qred_complete x y H). reflexivity. Qed.

Lemma ilog2_inject_Z (n : Z) : Py.ilog2 (inject_Z n) <= Z.log2 (Z.abs n).
Proof.
  unfold Py.ilog2. simpl Qnum. simpl Qden. change (Z.log2 1) with 0.
  destruct (Qle_bool _ _); lia.
Qed.

(** An integer of at most 53 bits is a binary64 number. *)
Lemma fl_inject_Z_small (n : Z) :
  Z.abs n < 2 ^ 53 -> (Py.fl (inject_Z n) == inject_Z n)%Q.
Proof.
  intros Hn. unfold Py.fl. rewrite Qred_inject_Z.
  destruct (Qeq_bool (inject_Z n) 0) eqn:E.
  - apply Qeq_bool_iff in E. symmetry. exact E.
  - assert (Hn0 : n <> 0).
    { intros ->. discriminate E. }
    pose proof (ilog2_inject_Z n) as Hlog.
    assert (Hlt : Z.log2 (Z.abs n) < 53) by (apply Z.log2_lt_pow2; lia).
    set (u := Py.ilog2 (inject_Z n) - 52) in *.
    assert (Hu : u <= 0) by (unfold u; lia).
    set (m := - u).
    assert (Hm : 0 <= m) by (unfold m; lia).
    assert (Hpow : (2 ^ u == / inject_Z (2 ^ m))%Q).
    { replace u with (- m) by (unfold m; lia).
      rewrite Qpower_opp. rewrite (Zpower_Qpower 2 m Hm). reflexivity. }
    assert (Hpos : ~ (inject_Z (2 ^ m) == 0)%Q).
    { intros H. unfold Qeq in H. simpl in H.
      pose proof (Z.pow_pos_nonneg 2 m ltac:(lia) Hm). lia. }
    assert (Hq : (inject_Z n / 2 ^ u == inject_Z (n * 2 ^ m))%Q).
    { rewrite Hpow, inject_Z_mult. field. exact Hpos. }
    rewrite (round_half_even_Qeq _ _ Hq), round_half_even_inject_Z.
    rewrite Qred_correct, Hpow, inject_Z_mult. field. exact Hpos.
Qed.

Lemma float_of_int_small (n : Z) :
  Z.abs n < 2 ^ 53 ->
  exists d : Q, Py.float_of_int n = Py.Ok d /\ (d == inject_Z n)%Q.
Proof.
  intros Hn. pose proof (fl_inject_Z_small n Hn) as Hfl.
  unfold Py.float_of_int.
  destruct (Qle_bool (2 ^ 1024) (Qabs (Py.fl (inject_Z n)))) eqn:E.
  - exfalso. apply Qle_bool_iff in E. rewrite Hfl in E.
    rewrite <- (Zpower_Qpower 2 1024) in E by lia.
    change (Qabs (inject_Z n)) with (inject_Z (Z.abs n)) in E.
    rewrite <- Zle_Qle in E.
    assert (2 ^ 53 < 2 ^ 1024) by (apply Z.pow_lt_mono_r; lia). lia.
  - eexists. split; [reflexivity|exact Hfl].
Qed.

(** The largest [int] that converts, and the smallest that does not. *)
Example float_of_int_threshold :
  (exists d, Py.float_of_int (2 ^ 1024 - 2 ^ 970 - 1) = Py.Ok d)
  /\ Py.float_of_int (2 ^ 1024 - 2 ^ 970) = Py.Raise Py.OverflowError
  /\ Py.float_of_int (- (2 ^ 1024 - 2 ^ 970)) = Py.Raise Py.OverflowError
  /\ (exists d, Py.float_of_int (2 ^ 53 + 1) = Py.Ok d /\ (d == inject_Z (2 ^ 53))%Q).
Proof.
  split; [|split; [|split]].
  - eexists. vm_compute. reflexivity.
  - vm_compute. reflexivity.
  - vm_compute. reflexivity.
  - eexists. split; [vm_compute; reflexivity|]. vm_compute. reflexivity.
Qed.

End ClockFacts.

Section StringOrder.

Lemma str_le_cases (s1 s2 : string) :
  Py.str_le s1 s2 <-> Py.str_lt s1 s2 \/ s1 = s2.
Proof.
  unfold Py.str_le, Py.str_lt, String.leb, String.ltb.
  destruct (String.compare s1 s2) eqn:E; split; intros H; auto; try discriminate.
  - right. apply String.compare_eq_iff. exact E.
  - destruct H as [H|H]; [discriminate|]. subst s2.
    pose proof (proj2 (OrderedTypeEx.String_as_OT.cmp_eq s1 s1) eq_refl) as Hrefl.
    unfold OrderedTypeEx.String_as_OT.cmp in Hrefl. congruence.
Qed.

Lemma str_lt_trans (s1 s2 s3 : string) :
  Py.str_lt s1 s2 -> Py.str_lt s2 s3 -> Py.str_lt s1 s3.
Proof.
  unfold Py.str_lt, String.ltb. intros H12 H23.
  destruct (String.compare s1 s2) eqn:E12; try discriminate.
  destruct (String.compare s2 s3) eqn:E23; try discriminate.
  apply OrderedTypeEx.String_as_OT.cmp_lt in E12, E23.
  pose proof (OrderedTypeEx.String_as_OT.lt_trans _ _ _ E12 E23) as H13.
  apply OrderedTypeEx.String_as_OT.cmp_lt in H13.
  unfold OrderedTypeEx.String_as_OT.cmp in H13. rewrite H13. reflexivity.
Qed.

Lemma str_lt_irrefl (s : string) : ~ Py.str_lt s s.
Proof.
  unfold Py.str_lt, String.ltb.
  pose proof (proj2 (OrderedTypeEx.String_as_OT.cmp_eq s s) eq_refl) as Hrefl.
  unfold OrderedTypeEx.String_as_OT.cmp in Hrefl. rewrite Hrefl. discriminate.
Qed.

Lemma str_le_refl (s : string) : Py.str_le s s.
Proof. apply str_le_cases. right. reflexivity. Qed.

Lemma str_le_trans (s1 s2 s3 : string) :
  Py.str_le s1 s2 -> Py.str_le s2 s3 -> Py.str_le s1 s3.
Proof.
  rewrite !str_le_cases. intros [H12 | ->] [H23 | ->]; auto.
  left. eapply str_lt_trans; eauto.
Qed.

Lemma str_le_total (s1 s2 : string) : Py.str_le s1 s2 \/ Py.str_le s2 s1.
Proof. apply String.leb_total. Qed.

Lemma str_le_antisym (s1 s2 : string) : Py.str_le s1 s2 -> Py.str_le s2 s1 -> s1 = s2.
Proof. apply String.leb_antisym. Qed.

Lemma str_le_neq_lt (s1 s2 : string) : Py.str_le s1 s2 -> s1 <> s2 -> Py.str_lt s1 s2.
Proof. rewrite str_le_cases. intros [H|H] Hne; [exact H|contradiction]. Qed.

End StringOrder.

Section SortedFacts.
Context {A : Type} (key : A -> string).

Lemma insert_sorted_perm (x : A) (l : list A) :
  Py.insert_sorted key x l ≡ₚ x :: l.
Proof.
  induction l as [|y l IH]; simpl; [reflexivity|].
  destruct (String.leb (key x) (key y)); [reflexivity|].
  rewrite IH. apply perm_swap.
Qed.

Lemma sorted_perm (l : list A) : Py.sorted key l ≡ₚ l.
Proof.
  induction l as [|x l IH]; simpl; [reflexivity|].
  rewrite insert_sorted_perm, IH. reflexivity.
Qed.

Lemma insert_sorted_StronglySorted (x : A) (l : list A) :
  StronglySorted (Py.key_le key) l -> StronglySorted (Py.key_le key) (Py.insert_sorted key x l).
Proof.
  induction 1 as [|y l Hl IH Hy]; simpl.
  - repeat constructor.
  - destruct (String.leb (key x) (key y)) eqn:E.
    + constructor; [constructor; assumption|].
      constructor; [exact E|].
      eapply Forall_impl; [exact Hy|]. intros z Hz.
      eapply str_le_trans; [exact E|exact Hz].
    + constructor; [exact IH|].
      rewrite (insert_sorted_perm x l). constructor; [|exact Hy].
      destruct (str_le_total (key x) (key y)) as [H|H]; [|exact H].
      unfold Py.str_le in H. congruence.
Qed.

Lemma sorted_StronglySorted (l : list A) : StronglySorted (Py.key_le key) (Py.sorted key l).
Proof.
  induction l as [|x l IH]; simpl; [constructor|].
  apply insert_sorted_StronglySorted. exact IH.
Qed.

Lemma sorted_elem_of (x : A) (l : list A) : x ∈ Py.sorted key l <-> x ∈ l.
Proof. rewrite (sorted_perm l). reflexivity. Qed.

End SortedFacts.

Section SortedMap.
Context {A B : Type} (f : A -> B) (key : B -> string).

(** Sorting the images is mapping over the list sorted by the composed key. *)
Lemma insert_sorted_map (x : A) (l : list A) :
  Py.insert_sorted key (f x) (map f l)
  = map f (Py.insert_sorted (fun a => key (f a)) x l).
Proof.
  induction l as [|y l IH]; simpl; [reflexivity|].
  destruct (String.leb (key (f x)) (key (f y))); simpl; [reflexivity|].
  rewrite IH. reflexivity.
Qed.

Lemma sorted_map (l : list A) :
  Py.sorted key (map f l) = map f (Py.sorted (fun a => key (f a)) l).
Proof.
  induction l as [|x l IH]; simpl; [reflexivity|].
  rewrite IH. apply insert_sorted_map.
Qed.

End SortedMap.

(* ================================================================== *)
(** * Runs of the application *)
(* ================================================================== *)

Section RunFacts.
Context (cfg : Config).

Lemma run_cons_fst st ev evs :
  fst (App.run cfg st (ev :: evs))
  = fst (App.run cfg (fst (App.handle cfg st ev)) evs).
Proof.
  simpl. destruct (App.handle cfg st ev) as [st1 resp]. simpl.
  destruct (App.run cfg st1 evs); reflexivity.
Qed.

Lemma run_cons_snd st ev evs :
  snd (App.run cfg st (ev :: evs))
  = snd (App.handle cfg st ev) :: snd (App.run cfg (fst (App.handle cfg st ev)) evs).
Proof.
  simpl. destruct (App.handle cfg st ev) as [st1 resp]. simpl.
  destruct (App.run cfg st1 evs); reflexivity.
Qed.

Lemma calls_cons sel ev evs :
  App.calls sel (ev :: evs)
  = ((if sel (snd ev) then 1 else 0) + App.calls sel evs)%nat.
Proof.
  unfold App.calls. rewrite filter_cons.
  destruct (sel (snd ev)); case_decide; simpl; congruence.
Qed.

Lemma statuses_cons sel ev evs resp resps :
  App.statuses sel (ev :: evs) (resp :: resps)
  = if sel (snd ev) then status_code resp :: App.statuses sel evs resps
    else App.statuses sel evs resps.
Proof. reflexivity. Qed.

(** The two ways [/ready] can go: past the gate it sets [READY] and
    answers 200; before it the globals stay and the answer is 503, or 500
    when the subtraction raises. *)
Lemma readiness_cases now st :
  (Py.Qlt_bool (Probe.elapsed_at cfg now) (inject_Z (STARTUP_DELAY cfg)) = false
   /\ Probe.readiness cfg now st
      = ({| READY := true; HEALTHY := HEALTHY st |},
         HTMLResponse
           (ReadinessPage (POD_NAME cfg) (STARTUP_DELAY cfg) (NAMESPACE cfg)) 200))
  \/ (Py.Qlt_bool (Probe.elapsed_at cfg now) (inject_Z (STARTUP_DELAY cfg)) = true
      /\ exists resp,
          Probe.readiness cfg now st = (st, resp)
          /\ ((status_code resp = 503
               /\ exists d, Py.float_of_int (STARTUP_DELAY cfg) = Py.Ok d)
              \/ (resp = HTMLResponse InternalServerError 500
                  /\ exists e, Py.float_of_int (STARTUP_DELAY cfg) = Py.Raise e))).
Proof.
  unfold Probe.readiness, Probe.readiness_body.
  destruct (Py.Qlt_bool _ _); [right|left]; split; try reflexivity.
  unfold Py.int_sub_float.
  destruct (Py.float_of_int (STARTUP_DELAY cfg)) as [d|e]; simpl.
  - eexists. split; [reflexivity|]. left. split; [reflexivity|]. eexists. reflexivity.
  - eexists. split; [reflexivity|]. right. split; [reflexivity|]. eexists. reflexivity.
Qed.

(** Only [/toggle-health] assigns [HEALTHY]. *)
Lemma handle_HEALTHY st now req :
  HEALTHY (fst (App.handle cfg st (now, req)))
  = if App.is_toggle_health req then negb (HEALTHY st) else HEALTHY st.
Proof.
  destruct req; simpl; try reflexivity.
  - unfold Probe.liveness. destruct (negb (HEALTHY st)); reflexivity.
  - destruct (readiness_cases now st) as [[_ ->]|[_ (resp & -> & _)]]; reflexivity.
  - unfold Probe.startup. destruct (Py.Qlt_bool _ _); reflexivity.
Qed.

(** The liveness query leaves the globals alone and answers by [HEALTHY]. *)
Lemma liveness_spec now st :
  fst (Probe.liveness cfg now st) = st
  /\ status_code (snd (Probe.liveness cfg now st)) = if HEALTHY st then 200 else 503.
Proof.
  unfold Probe.liveness. destruct (HEALTHY st); simpl; auto.
Qed.

Lemma run_HEALTHY evs : forall st,
  HEALTHY (fst (App.run cfg st evs))
  = xorb (HEALTHY st) (Nat.odd (App.calls App.is_toggle_health evs)).
Proof.
  induction evs as [|[now req] evs IH]; intros st.
  - simpl. destruct (HEALTHY st); reflexivity.
  - rewrite run_cons_fst, IH, handle_HEALTHY, calls_cons. simpl snd.
    destruct (App.is_toggle_health req).
    + change (1 + ?n)%nat with (S n). rewrite Nat.odd_succ, <- Nat.negb_odd.
      destruct (HEALTHY st), (Nat.odd _); reflexivity.
    + reflexivity.
Qed.

(** Between two readiness queries, [READY] follows the toggles. *)
Lemma run_toggle_ready (ts : list Q) : forall st,
  READY (fst (App.run cfg st (map (fun t => (t, App.GET_toggle_ready)) ts)))
  = xorb (READY st) (Nat.odd (length ts)).
Proof.
  induction ts as [|t ts IH]; intros st.
  - simpl. destruct (READY st); reflexivity.
  - simpl map. rewrite run_cons_fst, IH. simpl length.
    rewrite Nat.odd_succ, <- Nat.negb_odd. simpl.
    destruct (READY st), (Nat.odd _); reflexivity.
Qed.

(** The startup query never touches the globals. *)
Lemma startup_state now st : fst (Probe.startup cfg now st) = st.
Proof. unfold Probe.startup. destruct (Py.Qlt_bool _ _); reflexivity. Qed.

Lemma elapsed_lt_iff now (d : Q) :
  (Probe.elapsed_at cfg now < d)%Q <-> (now < APP_START_TIME cfg + d)%Q.
Proof. unfold Probe.elapsed_at. split; intros H; lra. Qed.

Lemma elapsed_ge_iff now (d : Q) :
  (d <= Probe.elapsed_at cfg now)%Q <-> (APP_START_TIME cfg + d <= now)%Q.
Proof. unfold Probe.elapsed_at. split; intros H; lra. Qed.

End RunFacts.

(* ================================================================== *)
(** * The probe state machine *)
(* ================================================================== *)

Section ProbeClaims.
Context (cfg : Config).

Lemma readiness_open now st :
  (APP_START_TIME cfg + inject_Z (STARTUP_DELAY cfg) <= now)%Q ->
  Probe.readiness cfg now st
  = ({| READY := true; HEALTHY := HEALTHY st |},
     HTMLResponse (ReadinessPage (POD_NAME cfg) (STARTUP_DELAY cfg) (NAMESPACE cfg)) 200).
Proof.
  intros H. apply elapsed_ge_iff, Qlt_bool_false_iff in H.
  unfold Probe.readiness, Probe.readiness_body. rewrite H. reflexivity.
Qed.

(** Before the gate, with a delay that converts to the float [d]. *)
Lemma readiness_locked now st d :
  (now < APP_START_TIME cfg + inject_Z (STARTUP_DELAY cfg))%Q ->
  Py.float_of_int (STARTUP_DELAY cfg) = Py.Ok d ->
  Probe.readiness cfg now st
  = (st, HTMLResponse
           (NotReadyYetPage
              (Py.round1 (Py.fl (d - (now - APP_START_TIME cfg))))
              (POD_NAME cfg)) 503).
Proof.
  intros H Hd. apply elapsed_lt_iff, Qlt_bool_iff in H.
  unfold Probe.readiness, Probe.readiness_body, Py.int_sub_float.
  rewrite H, Hd. reflexivity.
Qed.

(** Before the gate, with a delay too large for a float. *)
Lemma readiness_overflow now st e :
  (now < APP_START_TIME cfg + inject_Z (STARTUP_DELAY cfg))%Q ->
  Py.float_of_int (STARTUP_DELAY cfg) = Py.Raise e ->
  Probe.readiness cfg now st = (st, HTMLResponse InternalServerError 500).
Proof.
  intros H He. apply elapsed_lt_iff, Qlt_bool_iff in H.
  unfold Probe.readiness, Probe.readiness_body, Py.int_sub_float.
  rewrite H, He. reflexivity.
Qed.

(** Before the gate, with a delay of at most 53 bits and a difference that
    binary64 holds exactly: the exact remaining time is shown. *)
Lemma readiness_locked_exact now st :
  (now < APP_START_TIME cfg + inject_Z (STARTUP_DELAY cfg))%Q ->
  Z.abs (STARTUP_DELAY cfg) < 2 ^ 53 ->
  (Py.fl (inject_Z (STARTUP_DELAY cfg) - (now - APP_START_TIME cfg))
   == inject_Z (STARTUP_DELAY cfg) - (now - APP_START_TIME cfg))%Q ->
  Probe.readiness cfg now st
  = (st, HTMLResponse
           (NotReadyYetPage
              (Py.round1 (inject_Z (STARTUP_DELAY cfg) - (now - APP_START_TIME cfg))%Q)
              (POD_NAME cfg)) 503).
Proof.
  intros H Hsmall Hexact.
  destruct (float_of_int_small _ Hsmall) as (d & Hd & Hdn).
  rewrite (readiness_locked now st d H Hd). do 3 f_equal.
  rewrite (fl_Qeq (d - (now - APP_START_TIME cfg))
             (inject_Z (STARTUP_DELAY cfg) - (now - APP_START_TIME cfg)))
    by (rewrite Hdn; reflexivity).
  apply round1_Qeq. exact Hexact.
Qed.

Lemma startup_open now st :
  (APP_START_TIME cfg + 2 <= now)%Q ->
  Probe.startup cfg now st = (st, HTMLResponse StartupPage 200).
Proof.
  intros H. apply elapsed_ge_iff, Qlt_bool_false_iff in H.
  unfold Probe.startup. rewrite H. reflexivity.
Qed.

Lemma ready_statuses_after evs : forall t st,
  (APP_START_TIME cfg + inject_Z (STARTUP_DELAY cfg) <= t)%Q ->
  App.chronological t evs ->
  Forall (eq 200) (App.statuses App.is_ready evs (snd (App.run cfg st evs))).
Proof.
  induction evs as [|[now req] evs IH]; intros t st Ht Hch.
  - constructor.
  - destruct Hch as [Hle Hch]. simpl in Hle, Hch.
    assert (Hnow : (APP_START_TIME cfg + inject_Z (STARTUP_DELAY cfg) <= now)%Q)
      by (eapply Qle_trans; eauto).
    rewrite run_cons_snd, statuses_cons. simpl snd.
    destruct (App.is_ready req) eqn:E.
    + destruct req; try discriminate. simpl.
      rewrite (readiness_open now st Hnow). simpl.
      constructor; [reflexivity|]. eapply IH; eauto.
    + eapply IH; eauto.
Qed.

Lemma startup_statuses_after evs : forall t st,
  (APP_START_TIME cfg + 2 <= t)%Q ->
  App.chronological t evs ->
  Forall (eq 200) (App.statuses App.is_startup evs (snd (App.run cfg st evs))).
Proof.
  induction evs as [|[now req] evs IH]; intros t st Ht Hch.
  - constructor.
  - destruct Hch as [Hle Hch]. simpl in Hle, Hch.
    assert (Hnow : (APP_START_TIME cfg + 2 <= now)%Q) by (eapply Qle_trans; eauto).
    rewrite run_cons_snd, statuses_cons. simpl snd.
    destruct (App.is_startup req) eqn:E.
    + destruct req; try discriminate. simpl.
      rewrite (startup_open now st Hnow). simpl.
      constructor; [reflexivity|]. eapply IH; eauto.
    + eapply IH; eauto.
Qed.

(** C6.  Over any run, [HEALTHY] ends as its initial value XOR "the number
    of [/toggle-health] calls is odd"; in particular after N toggles on a
    fresh instance it is [true XOR (N odd)].  [/healthz] does not change the
    globals and answers 200 exactly when [HEALTHY] is true and 503 exactly
    when it is false.  On a fresh instance, toggle, query, toggle, query
    answers 503 then 200. *)
Theorem liveness_toggle_parity :
  (forall st evs,
      HEALTHY (fst (App.run cfg st evs))
      = xorb (HEALTHY st) (Nat.odd (App.calls App.is_toggle_health evs)))
  /\ (forall ts : list Q,
      HEALTHY (fst (App.run cfg initial_state
                      (map (fun t => (t, App.GET_toggle_health)) ts)))
      = xorb true (Nat.odd (length ts)))
  /\ (forall now st,
      fst (Probe.liveness cfg now st) = st
      /\ (status_code (snd (Probe.liveness cfg now st)) = 200 <-> HEALTHY st = true)
      /\ (status_code (snd (Probe.liveness cfg now st)) = 503 <-> HEALTHY st = false))
  /\ (forall t1 t2 t3 t4 : Q,
      let evs := [(t1, App.GET_toggle_health); (t2, App.GET_healthz);
                  (t3, App.GET_toggle_health); (t4, App.GET_healthz)] in
      App.statuses App.is_healthz evs (snd (App.run cfg initial_state evs))
      = [503; 200]).
Proof.
  split; [|split; [|split]].
  - intros st evs. apply run_HEALTHY.
  - intros ts. rewrite run_HEALTHY. simpl HEALTHY.
    f_equal. f_equal. induction ts as [|t ts IH]; [reflexivity|].
    simpl map. rewrite calls_cons. simpl. f_equal. exact IH.
  - intros now st. destruct (liveness_spec cfg now st) as [Hst Hcode].
    split; [exact Hst|]. rewrite Hcode.
    destruct (HEALTHY st); split; split; intros; congruence.
  - intros. reflexivity.
Qed.

(** C2.  Once the clock has reached [APP_START_TIME + STARTUP_DELAY], every
    [/ready] request answers 200 and assigns [READY = True], whatever the
    globals were (so whatever [/toggle-ready] did before); it changes the
    globals whenever [READY] was false, so the query is not free of
    mutation.  Over any chronological run from then on, every [/ready]
    answer is 200, never 503. *)
Theorem readiness_after_delay_forces_ready (t0 : Q) :
  (APP_START_TIME cfg + inject_Z (STARTUP_DELAY cfg) <= t0)%Q ->
  (forall now st, (t0 <= now)%Q ->
      status_code (snd (Probe.readiness cfg now st)) = 200
      /\ fst (Probe.readiness cfg now st) = {| READY := true; HEALTHY := HEALTHY st |}
      /\ status_code (snd (Probe.readiness cfg now (fst (Probe.toggle_ready cfg st)))) = 200
      /\ (READY st = false -> fst (Probe.readiness cfg now st) <> st))
  /\ (forall st evs, App.chronological t0 evs ->
      Forall (eq 200) (App.statuses App.is_ready evs (snd (App.run cfg st evs)))
      /\ ~ In 503 (App.statuses App.is_ready evs (snd (App.run cfg st evs)))).
Proof.
  intros Hgate. split.
  - intros now st Hnow.
    assert (H : (APP_START_TIME cfg + inject_Z (STARTUP_DELAY cfg) <= now)%Q)
      by (eapply Qle_trans; eauto).
    rewrite !(readiness_open now _ H). simpl.
    repeat split. intros Hr Heq. rewrite <- Heq in Hr. discriminate.
  - intros st evs Hch.
    pose proof (ready_statuses_after evs t0 st Hgate Hch) as Hall.
    split; [exact Hall|].
    intros Hin. rewrite Forall_forall in Hall.
    apply list_elem_of_In in Hin. apply Hall in Hin. discriminate.
Qed.

(** C3 (amended).  Before the clock reaches [APP_START_TIME + STARTUP_DELAY],
    [/ready] never answers 200 and leaves the globals as they were, whatever
    they are.  Provided [STARTUP_DELAY] converts to a float [d] (it does
    below [2 ** 1024 - 2 ** 970], see [float_of_int_threshold]) the answer
    is 503, and the time it shows is [d - elapsed] as binary64 computes it,
    rounded to one decimal; that is the exact remaining time, rounded, when
    the delay has at most 53 bits and the difference is a binary64 number.
    When the conversion raises, the answer is 500.  With a delay of 5: at
    3 s the answer is 503 and the page reads "2.0s remaining"; at 6 s the
    answer is 200. *)
Theorem readiness_before_delay_not_ready :
  (forall now st,
      (now < APP_START_TIME cfg + inject_Z (STARTUP_DELAY cfg))%Q ->
      fst (Probe.readiness cfg now st) = st
      /\ status_code (snd (Probe.readiness cfg now st)) <> 200
      /\ (status_code (snd (Probe.readiness cfg now st)) = 503
          <-> exists d, Py.float_of_int (STARTUP_DELAY cfg) = Py.Ok d))
  /\ (forall d now st,
      Py.float_of_int (STARTUP_DELAY cfg) = Py.Ok d ->
      (now < APP_START_TIME cfg + inject_Z (STARTUP_DELAY cfg))%Q ->
      Probe.readiness cfg now st
      = (st, HTMLResponse
               (NotReadyYetPage
                  (Py.round1 (Py.fl (d - (now - APP_START_TIME cfg))))
                  (POD_NAME cfg)) 503))
  /\ (forall e now st,
      Py.float_of_int (STARTUP_DELAY cfg) = Py.Raise e ->
      (now < APP_START_TIME cfg + inject_Z (STARTUP_DELAY cfg))%Q ->
      Probe.readiness cfg now st = (st, HTMLResponse InternalServerError 500))
  /\ (forall now st,
      (now < APP_START_TIME cfg + inject_Z (STARTUP_DELAY cfg))%Q ->
      Z.abs (STARTUP_DELAY cfg) < 2 ^ 53 ->
      (Py.fl (inject_Z (STARTUP_DELAY cfg) - (now - APP_START_TIME cfg))
       == inject_Z (STARTUP_DELAY cfg) - (now - APP_START_TIME cfg))%Q ->
      Probe.readiness cfg now st
      = (st, HTMLResponse
               (NotReadyYetPage
                  (Py.round1 (inject_Z (STARTUP_DELAY cfg) - (now - APP_START_TIME cfg))%Q)
                  (POD_NAME cfg)) 503))
  /\ (STARTUP_DELAY cfg = 5 ->
      forall st,
        Probe.readiness cfg (APP_START_TIME cfg + 3)%Q st
        = (st, HTMLResponse (NotReadyYetPage 20 (POD_NAME cfg)) 503)
        /\ remaining_sentence 20 = "<p>Simulating startup delay... 2.0s remaining</p>"
        /\ status_code (snd (Probe.readiness cfg (APP_START_TIME cfg + 6)%Q st)) = 200).
Proof.
  split; [|split; [|split; [|split]]].
  - intros now st H.
    destruct (Py.float_of_int (STARTUP_DELAY cfg)) as [d|e] eqn:E.
    + rewrite (readiness_locked now st d H E). simpl.
      split; [reflexivity|]. split; [discriminate|].
      split; [intros _; exists d; reflexivity|reflexivity].
    + rewrite (readiness_overflow now st e H E). simpl.
      split; [reflexivity|]. split; [discriminate|].
      split; [discriminate|]. intros [d Hd]. discriminate.
  - intros d now st Hfloat H. apply readiness_locked; assumption.
  - intros e now st Hfloat H. apply (readiness_overflow now st e); assumption.
  - intros now st H Hsmall Hexact. apply readiness_locked_exact; assumption.
  - intros Hd st. split; [|split].
    + assert (Hsmall : Z.abs (STARTUP_DELAY cfg) < 2 ^ 53) by (rewrite Hd; reflexivity).
      assert (Hdiff : (inject_Z (STARTUP_DELAY cfg)
                       - (APP_START_TIME cfg + 3 - APP_START_TIME cfg) == 2)%Q)
        by (rewrite Hd; change (inject_Z 5) with 5%Q; ring).
      rewrite readiness_locked_exact.
      * do 3 f_equal. transitivity (Py.round1 2); [|reflexivity].
        apply round1_Qeq. exact Hdiff.
      * rewrite Hd. change (inject_Z 5) with 5%Q. lra.
      * exact Hsmall.
      * rewrite (fl_Qeq _ 2 Hdiff), Hdiff. reflexivity.
    + reflexivity.
    + rewrite readiness_open by (rewrite Hd; change (inject_Z 5) with 5%Q; lra). reflexivity.
Qed.

(** C5.  From any clock reading [t0] at least 2 seconds after process start,
    [/startup] answers 200 (STARTED) without touching the globals, and over
    any chronological run of further requests (probes, toggles, pages), from
    any globals, every [/startup] answer is 200: it never answers 503
    again. *)
Theorem startup_never_reverts (t0 : Q) (st : State) (evs : list (Q * App.Request)) :
  (APP_START_TIME cfg + 2 <= t0)%Q ->
  App.chronological t0 evs ->
  Probe.startup cfg t0 st = (st, HTMLResponse StartupPage 200)
  /\ Forall (eq 200) (App.statuses App.is_startup evs (snd (App.run cfg st evs)))
  /\ ~ In 503 (App.statuses App.is_startup evs (snd (App.run cfg st evs))).
Proof.
  intros Hgate Hch.
  pose proof (startup_statuses_after evs t0 st Hgate Hch) as Hall.
  split; [apply startup_open; exact Hgate|]. split; [exact Hall|].
  intros Hin. rewrite Forall_forall in Hall.
  apply list_elem_of_In in Hin. apply Hall in Hin. discriminate.
Qed.

End ProbeClaims.

(* ================================================================== *)
(** * Peer discovery *)
(* ================================================================== *)

Section DnsFacts.
Context (my_ip : string).

Lemma dns_loop_invariant (results : list addrinfo) :
  forall (seen : gset string) (ips : list string),
    (forall x, x ∈ seen <-> x ∈ ips) ->
    NoDup ips ->
    exists (seen' : gset string) (ips' : list string),
      foldl (Discovery.dns_loop_body my_ip)
            (seen, map (Discovery.dns_peer my_ip) ips) results
      = (seen', map (Discovery.dns_peer my_ip) ips')
      /\ (forall x, x ∈ seen' <-> x ∈ ips')
      /\ NoDup ips'
      /\ (forall x, x ∈ ips' <-> x ∈ ips \/ x ∈ Discovery.addresses results).
Proof.
  induction results as [|r results IH]; intros seen ips Hseen Hnd.
  - exists seen, ips. simpl.
    split; [reflexivity|]. split; [exact Hseen|]. split; [exact Hnd|].
    intros x. split; [auto|]. intros [H|H]; [exact H|inversion H].
  - simpl foldl.
    destruct (decide (fst (ai_sockaddr r) ∈ seen)) as [Hin|Hnin].
    + destruct (IH seen ips Hseen Hnd) as (seen' & ips' & Hf & Hs & Hn & Hm).
      exists seen', ips'.
      split; [exact Hf|]. split; [exact Hs|]. split; [exact Hn|].
      intros x. rewrite Hm. simpl. rewrite elem_of_cons. split; [tauto|].
      intros [Hx|[->|Hx]]; [tauto| |tauto].
      left. apply Hseen. exact Hin.
    + assert (Hseen' : forall x, x ∈ ({[fst (ai_sockaddr r)]} ∪ seen : gset string)
                                 <-> x ∈ ips ++ [fst (ai_sockaddr r)]).
      { intros x. rewrite elem_of_union, elem_of_singleton, elem_of_app,
          list_elem_of_singleton, Hseen. tauto. }
      assert (Hnd' : NoDup (ips ++ [fst (ai_sockaddr r)])).
      { apply NoDup_app. split; [exact Hnd|]. split.
        - intros x Hx Hx'. apply list_elem_of_singleton in Hx'. subst x.
          apply Hnin, Hseen, Hx.
        - apply NoDup_singleton. }
      replace (map (Discovery.dns_peer my_ip) ips
                 ++ [Discovery.dns_peer my_ip (fst (ai_sockaddr r))])
        with (map (Discovery.dns_peer my_ip) (ips ++ [fst (ai_sockaddr r)]))
        by (rewrite map_app; reflexivity).
      destruct (IH _ _ Hseen' Hnd') as (seen' & ips' & Hf & Hs & Hn & Hm).
      exists seen', ips'.
      split; [exact Hf|]. split; [exact Hs|]. split; [exact Hn|].
      intros x. rewrite Hm, elem_of_app, list_elem_of_singleton.
      simpl. rewrite elem_of_cons. tauto.
Qed.

(** The loop leaves one dictionary per distinct address. *)
Lemma dns_loop_spec (results : list addrinfo) :
  exists ips : list string,
    snd (Discovery.dns_loop my_ip results) = map (Discovery.dns_peer my_ip) ips
    /\ NoDup ips
    /\ (forall x, x ∈ ips <-> x ∈ Discovery.addresses results).
Proof.
  destruct (dns_loop_invariant results ∅ []) as (seen' & ips' & Hf & Hs & Hn & Hm).
  - intros x. split; intros H; [apply not_elem_of_empty in H; contradiction|inversion H].
  - constructor.
  - exists ips'. unfold Discovery.dns_loop. simpl in Hf. rewrite Hf. simpl.
    split; [reflexivity|]. split; [exact Hn|].
    intros x. rewrite Hm. split; [|tauto].
    intros [Hx|Hx]; [inversion Hx|exact Hx].
Qed.

End DnsFacts.

Lemma StronglySorted_le_NoDup_lt (l : list string) :
  StronglySorted Py.str_le l -> NoDup l -> StronglySorted Py.str_lt l.
Proof.
  induction 1 as [|x l Hl IH Hx]; intros Hnd; [constructor|].
  apply NoDup_cons in Hnd. destruct Hnd as [Hnin Hnd].
  constructor; [apply IH; exact Hnd|].
  rewrite Forall_forall in Hx |- *. intros y Hy.
  apply str_le_neq_lt; [apply Hx; exact Hy|].
  intros ->. contradiction.
Qed.

Section K8sFacts.





Lemma total_restarts_nonneg (l : list V1ContainerStatus) :
  Forall (fun cs => 0 <= restart_count cs) l -> 0 <= Discovery.spec_total_restarts l.
Proof. induction 1; simpl; lia. Qed.


End K8sFacts.

Section DiscoveryClaims.
Context (cfg : Config) (w : World).

(** C4.  The composed call returns Strategy A's list as it is when that list
    is not empty, and otherwise exactly what Strategy B returns (its list,
    or the exception it raises); the two lists are never combined. *)
Theorem fetch_whole_A_or_whole_B :
  (Discovery._discover_via_k8s_api cfg w <> []
   /\ Discovery._fetch_peer_pods cfg w = Py.Ok (Discovery._discover_via_k8s_api cfg w))
  \/ (Discovery._discover_via_k8s_api cfg w = []
      /\ Discovery._fetch_peer_pods cfg w = Discovery._discover_via_dns cfg w).
Proof.
  unfold Discovery._fetch_peer_pods.
  destruct (Discovery._discover_via_k8s_api cfg w) as [|p peers]; simpl.
  - right. split; reflexivity.
  - left. split; [discriminate|reflexivity].
Qed.

(** C7.  When the resolver answers, Strategy B returns one record per
    distinct address, in strictly ascending lexicographic order of address
    (so without duplicates), covering exactly the addresses of the answer;
    every record has its name equal to its address, node "—" (unknown),
    phase Running, ready true, zero restarts, and is marked as self exactly
    when its address is the locally resolved one.  For the answer
    10.0.0.5, 10.0.0.2, 10.0.0.2 the result is 10.0.0.2, 10.0.0.5. *)
Theorem dns_discovery_dedup_sorted (my_ip : string) (results : list addrinfo) :
  gethostbyname_self w = Py.Ok my_ip ->
  getaddrinfo w (Discovery.dns_name cfg) 8000 = Py.Ok results ->
  exists peers : list Peer,
    Discovery._discover_via_dns cfg w = Py.Ok peers
    /\ StronglySorted Py.str_lt (map peer_ip peers)
    /\ (forall a, a ∈ map peer_ip peers <-> a ∈ Discovery.addresses results)
    /\ Forall (fun p =>
                 peer_name p = peer_ip p
                 /\ peer_node p = "—"
                 /\ peer_phase p = Some "Running"
                 /\ peer_ready p = true
                 /\ peer_restarts p = 0
                 /\ (peer_is_self p = true <-> peer_ip p = my_ip)) peers
    /\ (Discovery.addresses results = ["10.0.0.5"; "10.0.0.2"; "10.0.0.2"] ->
        map peer_name peers = ["10.0.0.2"; "10.0.0.5"]).
Proof.
  intros Hip Hres.
  exists (Py.sorted peer_ip (snd (Discovery.dns_loop my_ip results))).
  split.
  { unfold Discovery._discover_via_dns. rewrite Hip. simpl. rewrite Hres. reflexivity. }
  destruct (dns_loop_spec my_ip results) as (ips & Hloop & Hnd & Hmem).
  assert (Hsorted : Py.sorted peer_ip (snd (Discovery.dns_loop my_ip results))
                    = map (Discovery.dns_peer my_ip) (Py.sorted (fun a => a) ips)).
  { rewrite Hloop. apply (sorted_map (Discovery.dns_peer my_ip) peer_ip). }
  assert (Hips : map peer_ip (Py.sorted peer_ip (snd (Discovery.dns_loop my_ip results)))
                 = Py.sorted (fun a => a) ips).
  { rewrite Hsorted, map_map. simpl. apply map_id. }
  split; [|split; [|split]].
  - rewrite Hips. apply StronglySorted_le_NoDup_lt.
    + apply (sorted_StronglySorted (fun a : string => a)).
    + rewrite (sorted_perm (fun a : string => a) ips). exact Hnd.
  - intros a. rewrite Hips, sorted_elem_of. apply Hmem.
  - rewrite Hsorted. apply Forall_forall. intros p Hp.
    apply list_elem_of_fmap in Hp. destruct Hp as (ip & -> & _). simpl.
    repeat split; try reflexivity; apply String.eqb_eq.
  - intros Haddr. clear - Haddr.
    destruct results as [|r1 [|r2 [|r3 [|r4 results]]]]; try discriminate.
    unfold Discovery.addresses in Haddr. simpl in Haddr.
    destruct r1 as [? ? ? ? [ip1 ?]], r2 as [? ? ? ? [ip2 ?]], r3 as [? ? ? ? [ip3 ?]].
    simpl in Haddr. injection Haddr as -> -> ->.
    vm_compute. reflexivity.
Qed.


(** C9 (amended).  No failure of discovery reaches the HTTP caller, and
    [get_peer_pods] always returns a list.  When Strategy A fails (client
    unavailable, or the API call or the local lookup raises anything) it
    yields nothing and the composed call is Strategy B's; when Strategy A
    yields nothing and the resolver raises [gaierror], when the overall
    timeout strikes, and when anything escapes the composed call, the list
    is empty.  [/] and [/info] answer 200 exactly when the handler's own
    lookup of the local address succeeds; when that lookup raises, which
    is also a failure of Strategy A, the list is still empty and nothing
    escapes discovery, but both pages answer 500. *)
Theorem discovery_failures_degrade :
  ((K8S_AVAILABLE cfg = false
    \/ (exists e, list_namespaced_pod w (NAMESPACE cfg) "app=demo" = Py.Raise e)
    \/ (exists e, gethostbyname_self w = Py.Raise e)) ->
   Discovery._discover_via_k8s_api cfg w = []
   /\ Discovery._fetch_peer_pods cfg w = Discovery._discover_via_dns cfg w)
  /\ (Discovery._discover_via_k8s_api cfg w = [] ->
      getaddrinfo w (Discovery.dns_name cfg) 8000 = Py.Raise Py.gaierror ->
      Discovery.get_peer_pods cfg w = [])
  /\ (within_timeout w = false -> Discovery.get_peer_pods cfg w = [])
  /\ (forall e, Discovery.wait_for_fetch cfg w = Py.Raise e ->
      Discovery.get_peer_pods cfg w = [])
  /\ (forall now st,
      (status_code (App.respond (Probe.index cfg now w)) = 200
       <-> exists ip, gethostbyname_self w = Py.Ok ip)
      /\ (status_code (App.respond (Probe.info cfg now w st)) = 200
          <-> exists ip, gethostbyname_self w = Py.Ok ip))
  /\ (forall e, gethostbyname_self w = Py.Raise e ->
      Discovery.get_peer_pods cfg w = []
      /\ forall now st,
          App.respond (Probe.index cfg now w) = HTMLResponse InternalServerError 500
          /\ App.respond (Probe.info cfg now w st)
             = HTMLResponse InternalServerError 500).
Proof.
  split; [|split; [|split; [|split; [|split]]]].
  - intros Hfail.
    assert (HA : Discovery._discover_via_k8s_api cfg w = []).
    { unfold Discovery._discover_via_k8s_api.
      destruct (K8S_AVAILABLE cfg); simpl; [|reflexivity].
      destruct Hfail as [H|[[e H]|[e H]]]; [discriminate| |].
      - rewrite H. reflexivity.
      - rewrite H. destruct (list_namespaced_pod w _ _); reflexivity. }
    split; [exact HA|].
    unfold Discovery._fetch_peer_pods. rewrite HA. reflexivity.
  - intros HA Hdns.
    unfold Discovery.get_peer_pods, Discovery.wait_for_fetch,
      Discovery._fetch_peer_pods, Discovery._discover_via_dns.
    rewrite HA, Hdns. simpl.
    destruct (within_timeout w); [|reflexivity].
    destruct (gethostbyname_self w); reflexivity.
  - intros Ht. unfold Discovery.get_peer_pods, Discovery.wait_for_fetch.
    rewrite Ht. reflexivity.
  - intros e He. unfold Discovery.get_peer_pods. rewrite He. reflexivity.
  - intros now st. unfold Probe.index, Probe.info.
    destruct (gethostbyname_self w) as [ip|e]; simpl; split; split;
      try (intros _; exists ip; reflexivity);
      try reflexivity; try discriminate;
      intros [ip H]; discriminate.
  - intros e He. split.
    + unfold Discovery.get_peer_pods, Discovery.wait_for_fetch,
        Discovery._fetch_peer_pods, Discovery._discover_via_dns,
        Discovery._discover_via_k8s_api.
      rewrite He. simpl.
      destruct (within_timeout w); [|reflexivity].
      destruct (negb (K8S_AVAILABLE cfg)); simpl; [reflexivity|].
      destruct (list_namespaced_pod w _ _); reflexivity.
    + intros now st. unfold Probe.index, Probe.info. rewrite He.
      split; reflexivity.
Qed.

End DiscoveryClaims.

(* ================================================================== *)
(** * The environment dump *)
(* ================================================================== *)

Section StringFacts.

Lemma app_cons (c : ascii) (s t : string) : String c s +:+ t = String c (s +:+ t).
Proof. reflexivity. Qed.

Lemma app_empty_l (s : string) : "" +:+ s = s.
Proof. reflexivity. Qed.

Lemma app_empty_r (s : string) : s +:+ "" = s.
Proof. induction s as [|c s IH]; [reflexivity|]. rewrite app_cons, IH. reflexivity. Qed.

Lemma app_assoc_str (s t u : string) : (s +:+ t) +:+ u = s +:+ (t +:+ u).
Proof.
  induction s as [|c s IH]; [reflexivity|]. rewrite !app_cons, IH. reflexivity.
Qed.

Lemma prefix_iff (a : string) : forall b,
  String.prefix a b = true <-> exists post, b = a +:+ post.
Proof.
  induction a as [|c a IH]; intros b.
  - split; [|destruct b; reflexivity]. intros _. exists b. reflexivity.
  - destruct b as [|d b]; simpl.
    + split; [discriminate|]. intros [post H]. rewrite app_cons in H. discriminate.
    + destruct (ascii_dec c d) as [->|Hne].
      * rewrite IH. split; intros [post H]; exists post.
        -- rewrite app_cons, H. reflexivity.
        -- rewrite app_cons in H. injection H as H. exact H.
      * split; [discriminate|]. intros [post H].
        rewrite app_cons in H. injection H as H1 H2. congruence.
Qed.

Lemma contains_unfold (needle hay : string) :
  Py.contains needle hay
  = if String.prefix needle hay then true
    else match hay with
         | EmptyString => false
         | String _ hay' => Py.contains needle hay'
         end.
Proof. destruct hay; reflexivity. Qed.

(** [needle in hay] holds exactly when [hay] splits around [needle]. *)
Lemma contains_iff (needle hay : string) :
  Py.contains needle hay = true
  <-> exists pre post, hay = pre +:+ needle +:+ post.
Proof.
  split.
  - induction hay as [|c hay IH]; rewrite contains_unfold;
      destruct (String.prefix needle _) eqn:E.
    + intros _. apply prefix_iff in E. destruct E as [post E].
      exists "", post. exact E.
    + discriminate.
    + intros _. apply prefix_iff in E. destruct E as [post E].
      exists "", post. exact E.
    + intros H. destruct (IH H) as (pre & post & Hh).
      exists (String c pre), post. rewrite app_cons, Hh. reflexivity.
  - intros (pre & post & ->). induction pre as [|c pre IH].
    + rewrite contains_unfold, app_empty_l.
      rewrite (proj2 (prefix_iff needle (needle +:+ post))); [reflexivity|].
      exists post. reflexivity.
    + rewrite contains_unfold, app_cons.
      destruct (String.prefix needle _); [reflexivity|exact IH].
Qed.

Lemma upper_cons (c : ascii) (s : string) :
  Py.upper (String c s) = Py.upper_char c +:+ Py.upper s.
Proof. reflexivity. Qed.

Lemma upper_app (s t : string) : Py.upper (s +:+ t) = Py.upper s +:+ Py.upper t.
Proof.
  induction s as [|c s IH]; [reflexivity|].
  rewrite app_cons, !upper_cons, IH, app_assoc_str. reflexivity.
Qed.




End StringFacts.

Section InfoFacts.

Lemma SECRET_WORDS_upper (word : string) :
  word ∈ Info.SECRET_WORDS -> Py.upper word = word.
Proof.
  unfold Info.SECRET_WORDS. rewrite !elem_of_cons.
  intros [->|[->|[->|[->|H]]]]; try (vm_compute; reflexivity). inversion H.
Qed.

(** The test of the loop is the case-insensitive occurrence of a marker. *)
Lemma is_masked_iff (key : string) :
  Info.is_masked key = true <-> Info.spec_secret_like key.
Proof.
  unfold Info.is_masked, Info.spec_secret_like, Info.spec_occurs_nocase.
  rewrite existsb_exists. split.
  - intros (word & Hin & Hc). exists word.
    apply list_elem_of_In in Hin. split; [exact Hin|].
    apply contains_iff in Hc. destruct Hc as (pre & post & Hu).
    exists pre, post. rewrite (SECRET_WORDS_upper word Hin). exact Hu.
  - intros (word & Hin & pre & post & Hu). exists word.
    split; [apply list_elem_of_In; exact Hin|].
    apply contains_iff. exists pre, post.
    rewrite (SECRET_WORDS_upper word Hin) in Hu. exact Hu.
Qed.


(** A name spelled with the sharp s (code point 223) is masked: its upper
    case reads PASSWORD.  So is one that ends in KEY after an accented
    letter; a name in which the micro sign stands for a letter is not. *)
Example is_masked_sharp_s :
  Py.upper ("pa" +:+ String (ascii_of_N 223) "word") = "PASSWORD"
  /\ Info.is_masked ("pa" +:+ String (ascii_of_N 223) "word") = true
  /\ Info.is_masked (String (ascii_of_N 233) "key") = true
  /\ Info.is_masked ("to" +:+ String (ascii_of_N 181) "ken") = false.
Proof. vm_compute. repeat split; reflexivity. Qed.

Lemma is_masked_false_iff (key : string) :
  Info.is_masked key = false <-> ~ Info.spec_secret_like key.
Proof.
  rewrite <- is_masked_iff. destruct (Info.is_masked key); split; auto; congruence.
Qed.

Lemma foldl_rows (row : string -> string) (keys : list string) : forall acc,
  foldl (fun acc key => acc +:+ row key) acc keys
  = acc +:+ String.concat "" (map row keys).
Proof.
  induction keys as [|k keys IH]; intros acc; simpl.
  - rewrite app_empty_r. reflexivity.
  - rewrite IH, app_assoc_str. f_equal.
    destruct keys as [|k' keys]; simpl; [rewrite app_empty_r|]; reflexivity.
Qed.

Lemma env_rows_concat (environ : gmap string string) :
  Info.env_rows environ
  = String.concat "" (map (Info.env_row environ) (Info.sorted_keys environ)).
Proof. unfold Info.env_rows. rewrite foldl_rows. reflexivity. Qed.



End InfoFacts.

Section InfoClaims.
Context (environ : gmap string string).



Lemma env_row_agree (environ' : gmap string string) (key : string) :
  (~ Info.spec_secret_like key -> environ' !! key = environ !! key) ->
  Info.env_row environ' key = Info.env_row environ key.
Proof.
  intros H. unfold Info.env_row.
  destruct (Info.is_masked key) eqn:E; [reflexivity|].
  apply is_masked_false_iff in E.
  rewrite !lookup_total_alt, (H E). reflexivity.
Qed.


End InfoClaims.

(* ================================================================== *)
(** * Scenarios *)
(* ================================================================== *)

(** C1.  A process with the default delay of 5 s, started at clock reading
    0.  At 6 s [/ready] answers 200; at 7 s [/toggle-ready] sets [READY] to
    false and announces that [/ready] will answer 503; at 8 s [/ready]
    answers 200 all the same and [READY] is true again: the query does not
    report the value the toggle last set. *)
Theorem ready_query_ignores_toggle :
  let cfg := default_config 0 in
  let evs := ready_toggle_ready in
  READY (fst (App.run cfg initial_state [(6%Q, App.GET_ready); (7%Q, App.GET_toggle_ready)]))
  = false
  /\ content (snd (Probe.toggle_ready cfg {| READY := true; HEALTHY := true |}))
     = ReadinessToggledPage "fail" "NOT READY" "unknown-pod" "default"
  /\ App.statuses App.is_ready evs (snd (App.run cfg initial_state evs)) = [200; 200]
  /\ READY (fst (App.run cfg initial_state evs)) = true.
Proof. vm_compute. repeat split; reflexivity. Qed.

(** With API access the composed call returns the API's records, in order
    of name, although the resolver would have answered with another
    address. *)
Example fetch_prefers_api :
  map peer_name (Discovery.get_peer_pods (default_config 0) k8s_world)
  = ["pod-a"; "pod-b"]
  /\ map peer_ready (Discovery.get_peer_pods (default_config 0) k8s_world)
     = [true; false]
  /\ map peer_restarts (Discovery.get_peer_pods (default_config 0) k8s_world)
     = [0; 3]
  /\ map peer_is_self (Discovery.get_peer_pods (default_config 0) k8s_world)
     = [true; false]
  /\ Discovery._discover_via_dns (default_config 0) k8s_world
     = Py.Ok [Discovery.dns_peer "10.0.0.2" "10.0.0.9"].
Proof. vm_compute. repeat split; reflexivity. Qed.

(** C3 as the specification words it does not hold.  With [STARTUP_DELAY]
    set to [2 ** 1024], a request at 3 s, before the gate, is answered 500:
    the subtraction raises [OverflowError].  With [2 ** 53 + 1] the answer
    is 503 but the time shown, 9007199254740989.0, is not the remaining
    9007199254740990 s rounded. *)
Lemma readiness_overflow_answers_500 :
  (3 < APP_START_TIME overflow_config + inject_Z (STARTUP_DELAY overflow_config))%Q
  /\ Probe.readiness overflow_config 3 initial_state
     = (initial_state, HTMLResponse InternalServerError 500)
  /\ (3 < APP_START_TIME long_delay_config + inject_Z (STARTUP_DELAY long_delay_config))%Q
  /\ snd (Probe.readiness long_delay_config 3 initial_state)
     = HTMLResponse (NotReadyYetPage 90071992547409890 "unknown-pod") 503
  /\ Py.round1 (inject_Z (STARTUP_DELAY long_delay_config)
                - (3 - APP_START_TIME long_delay_config))
     = 90071992547409900.
Proof.
  split; [vm_compute; reflexivity|]. split; [vm_compute; reflexivity|].
  split; [vm_compute; reflexivity|]. split; vm_compute; reflexivity.
Qed.

(** C9 as the specification words it does not hold, twice.  With the API
    call refused (no RBAC) and the headless Service resolving, the composed
    call returns Strategy B's two records, not an empty list.  And when the
    pod cannot resolve its own host name, Strategy A fails on that lookup
    and discovery returns an empty list without raising, yet [/] and
    [/info] answer 500: the handlers make the same lookup themselves. *)
Lemma strategy_A_error_falls_through :
  (list_namespaced_pod dns_only_world (NAMESPACE (default_config 0)) "app=demo"
   = Py.Raise (Py.OtherException "403 Forbidden")
   /\ map peer_name (Discovery.get_peer_pods (default_config 0) dns_only_world)
      = ["10.0.0.2"; "10.0.0.5"]
   /\ Discovery.get_peer_pods (default_config 0) dns_only_world <> [])
  /\ (gethostbyname_self unresolvable_world = Py.Raise Py.gaierror
      /\ Discovery._discover_via_k8s_api (default_config 0) unresolvable_world = []
      /\ Discovery.get_peer_pods (default_config 0) unresolvable_world = []
      /\ snd (App.handle (default_config 0) initial_state
                (7%Q, App.GET_index unresolvable_world))
         = HTMLResponse InternalServerError 500
      /\ snd (App.handle (default_config 0) initial_state
                (7%Q, App.GET_info unresolvable_world))
         = HTMLResponse InternalServerError 500).
Proof.
  split.
  - split; [reflexivity|]. split; [vm_compute; reflexivity|].
    vm_compute. discriminate.
  - split; [reflexivity|]. split; [vm_compute; reflexivity|].
    split; [vm_compute; reflexivity|]. split; vm_compute; reflexivity.
Qed.

(** Comparisons between rational literals. *)
Ltac closed_Q := unfold Qle, Qlt; simpl; lia.

(** C2 at a process started at 0 with the default delay: a query at 6 s,
    also right after a toggle, and the run query, toggle, query. *)
Lemma readiness_after_delay_forces_ready_witness :
  let cfg := default_config 0 in
  (APP_START_TIME cfg + inject_Z (STARTUP_DELAY cfg) <= 5)%Q
  /\ (status_code (snd (Probe.readiness cfg 6 {| READY := false; HEALTHY := true |})) = 200
      /\ fst (Probe.readiness cfg 6 {| READY := false; HEALTHY := true |})
         = {| READY := true; HEALTHY := true |}
      /\ status_code
           (snd (Probe.readiness cfg 6
                   (fst (Probe.toggle_ready cfg {| READY := false; HEALTHY := true |}))))
         = 200
      /\ fst (Probe.readiness cfg 6 {| READY := false; HEALTHY := true |})
         <> {| READY := false; HEALTHY := true |})
  /\ Forall (eq 200)
       (App.statuses App.is_ready ready_toggle_ready
          (snd (App.run cfg initial_state ready_toggle_ready))).
Proof.
  intros cfg.
  assert (Hgate : (APP_START_TIME cfg + inject_Z (STARTUP_DELAY cfg) <= 5)%Q)
    by closed_Q.
  destruct (readiness_after_delay_forces_ready cfg 5 Hgate) as [Hstep Hrun].
  split; [exact Hgate|]. split.
  - destruct (Hstep 6%Q {| READY := false; HEALTHY := true |}) as (H1 & H2 & H3 & H4).
    + closed_Q.
    + split; [exact H1|]. split; [exact H2|]. split; [exact H3|].
      apply H4. reflexivity.
  - apply (Hrun initial_state ready_toggle_ready).
    simpl. repeat split; closed_Q.
Defined.

(** C3 at the same process: a query at 3 s, with [READY] toggled on and
    [HEALTHY] off, and one at 6 s; and at a process whose delay does not
    convert. *)
Lemma readiness_before_delay_not_ready_witness :
  let cfg := default_config 0 in
  let st := {| READY := true; HEALTHY := false |} in
  Py.float_of_int (STARTUP_DELAY cfg) = Py.Ok 5%Q
  /\ (3 < APP_START_TIME cfg + inject_Z (STARTUP_DELAY cfg))%Q
  /\ STARTUP_DELAY cfg = 5
  /\ Probe.readiness cfg 3 st
     = (st, HTMLResponse
              (NotReadyYetPage
                 (Py.round1 (Py.fl (5 - (3 - APP_START_TIME cfg))))
                 (POD_NAME cfg)) 503)
  /\ Probe.readiness cfg 3 st
     = (st, HTMLResponse
              (NotReadyYetPage
                 (Py.round1 (inject_Z (STARTUP_DELAY cfg) - (3 - APP_START_TIME cfg))%Q)
                 (POD_NAME cfg)) 503)
  /\ status_code (snd (Probe.readiness cfg (APP_START_TIME cfg + 6)%Q st)) = 200
  /\ Py.float_of_int (STARTUP_DELAY overflow_config) = Py.Raise Py.OverflowError
  /\ Probe.readiness overflow_config 3 st = (st, HTMLResponse InternalServerError 500).
Proof.
  intros cfg st.
  assert (Hfloat : Py.float_of_int (STARTUP_DELAY cfg) = Py.Ok 5%Q)
    by (vm_compute; reflexivity).
  assert (Hlt : (3 < APP_START_TIME cfg + inject_Z (STARTUP_DELAY cfg))%Q)
    by closed_Q.
  assert (Hd : STARTUP_DELAY cfg = 5) by reflexivity.
  assert (Hraise : Py.float_of_int (STARTUP_DELAY overflow_config)
                   = Py.Raise Py.OverflowError) by (vm_compute; reflexivity).
  assert (Hlt' : (3 < APP_START_TIME overflow_config
                      + inject_Z (STARTUP_DELAY overflow_config))%Q)
    by (vm_compute; reflexivity).
  destruct (readiness_before_delay_not_ready cfg)
    as (_ & Hlocked & _ & Hexact & Hscenario).
  destruct (readiness_before_delay_not_ready overflow_config)
    as (_ & _ & Hoverflow & _).
  split; [exact Hfloat|]. split; [exact Hlt|]. split; [exact Hd|].
  split; [apply (Hlocked 5%Q 3%Q st Hfloat Hlt)|]. split.
  { apply (Hexact 3%Q st Hlt).
    - vm_compute. reflexivity.
    - vm_compute. reflexivity. }
  split; [apply (Hscenario Hd st)|].
  split; [exact Hraise|].
  apply (Hoverflow Py.OverflowError 3%Q st Hraise Hlt').
Defined.

(** C5 at the same process, from 2 s on, over toggles, pages and startup
    queries. *)
Lemma startup_never_reverts_witness :
  let cfg := default_config 0 in
  (APP_START_TIME cfg + 2 <= 2)%Q
  /\ App.chronological 2 busy_afternoon
  /\ Probe.startup cfg 2 initial_state = (initial_state, HTMLResponse StartupPage 200)
  /\ Forall (eq 200)
       (App.statuses App.is_startup busy_afternoon
          (snd (App.run cfg initial_state busy_afternoon))).
Proof.
  intros cfg.
  assert (Hgate : (APP_START_TIME cfg + 2 <= 2)%Q) by closed_Q.
  assert (Hch : App.chronological 2 busy_afternoon)
    by (simpl; repeat split; closed_Q).
  destruct (startup_never_reverts cfg 2 initial_state busy_afternoon Hgate Hch)
    as (H1 & H2 & _).
  split; [exact Hgate|]. split; [exact Hch|]. split; [exact H1|exact H2].
Defined.

(** C7 for the resolver answer 10.0.0.5, 10.0.0.2, 10.0.0.2. *)
Lemma dns_discovery_dedup_sorted_witness :
  let cfg := default_config 0 in
  let results := map tcp_addrinfo ["10.0.0.5"; "10.0.0.2"; "10.0.0.2"] in
  gethostbyname_self dns_only_world = Py.Ok "10.0.0.2"
  /\ getaddrinfo dns_only_world (Discovery.dns_name cfg) 8000 = Py.Ok results
  /\ exists peers,
      Discovery._discover_via_dns cfg dns_only_world = Py.Ok peers
      /\ StronglySorted Py.str_lt (map peer_ip peers)
      /\ map peer_name peers = ["10.0.0.2"; "10.0.0.5"].
Proof.
  intros cfg results.
  split; [reflexivity|]. split; [reflexivity|].
  destruct (dns_discovery_dedup_sorted cfg dns_only_world "10.0.0.2" results
              eq_refl eq_refl) as (peers & Hres & Hsorted & _ & _ & Hscenario).
  exists peers. split; [exact Hres|]. split; [exact Hsorted|].
  apply Hscenario. reflexivity.
Defined.


(** C9 (amended) at four worlds: API refused but DNS resolving, nothing
    resolving, the worker not answering in time, and the pod's own name not
    resolving. *)
Lemma discovery_failures_degrade_witness :
  let cfg := default_config 0 in
  (Discovery._discover_via_k8s_api cfg dns_only_world = []
   /\ Discovery._fetch_peer_pods cfg dns_only_world
      = Discovery._discover_via_dns cfg dns_only_world)
  /\ Discovery.get_peer_pods cfg isolated_world = []
  /\ Discovery.get_peer_pods cfg hung_world = []
  /\ (status_code (App.respond (Probe.index cfg 7 isolated_world)) = 200
      /\ status_code (App.respond (Probe.info cfg 7 isolated_world initial_state)) = 200)
  /\ (Discovery.get_peer_pods cfg unresolvable_world = []
      /\ App.respond (Probe.index cfg 7 unresolvable_world)
         = HTMLResponse InternalServerError 500
      /\ App.respond (Probe.info cfg 7 unresolvable_world initial_state)
         = HTMLResponse InternalServerError 500).
Proof.
  intros cfg. split; [|split; [|split; [|split]]].
  - apply (proj1 (discovery_failures_degrade cfg dns_only_world)).
    right. left. exists (Py.OtherException "403 Forbidden"). reflexivity.
  - apply (proj1 (proj2 (discovery_failures_degrade cfg isolated_world)));
      reflexivity.
  - assert (Hraise : Discovery.wait_for_fetch cfg hung_world = Py.Raise Py.TimeoutError)
      by reflexivity.
    pose proof (proj1 (proj2 (proj2 (proj2 (discovery_failures_degrade cfg hung_world))))
                  Py.TimeoutError Hraise) as Hcaught.
    apply (proj1 (proj2 (proj2 (discovery_failures_degrade cfg hung_world)))).
    reflexivity.
  - destruct (proj1 (proj2 (proj2 (proj2 (proj2
               (discovery_failures_degrade cfg isolated_world)))))
               7%Q initial_state) as [Hindex Hinfo].
    split; [apply Hindex|apply Hinfo]; exists "10.0.0.2"; reflexivity.
  - destruct (proj2 (proj2 (proj2 (proj2 (proj2
               (discovery_failures_degrade cfg unresolvable_world)))))
               Py.gaierror eq_refl) as [Hpeers Hpages].
    split; [exact Hpeers|]. apply (Hpages 7%Q initial_state).
Defined.


(* ================================================================== *)
(** * Further properties of the probes *)
(* ================================================================== *)

Section RoundingFacts.

(** Rounding moves a number by at most one half. *)
Lemma round_half_even_near (x : Q) :
  (inject_Z (Py.round_half_even x) - (1 # 2) <= x)%Q
  /\ (x <= inject_Z (Py.round_half_even x) + (1 # 2))%Q.
Proof.
  destruct x as [n d]. unfold Py.round_half_even. simpl Qnum. simpl Qden.
  pose proof (Z.div_mod n (Z.pos d) ltac:(lia)) as Hdm.
  pose proof (Z.mod_pos_bound n (Z.pos d) ltac:(lia)) as Hm.
  set (q := n / Z.pos d) in *. set (m := n mod Z.pos d) in *.
  clearbody q m.
  assert (Hq : forall r : Z, (r = q \/ r = q + 1) ->
               (r = q -> 2 * m <= Z.pos d) -> (r = q + 1 -> Z.pos d <= 2 * m) ->
               (inject_Z r - (1 # 2) <= n # d)%Q /\ (n # d <= inject_Z r + (1 # 2))%Q).
  { intros r Hr H1 H2. unfold Qle, Qminus, Qplus, Qopp, inject_Z. simpl.
    change (Z.pos (1 * 2)) with 2.
    destruct Hr as [-> | ->]; [specialize (H1 eq_refl)|specialize (H2 eq_refl)];
      subst n; split; nia. }
  destruct (Z.compare_spec (2 * m) (Z.pos d)) as [He|Hl|Hg].
  - destruct (Z.even q); apply Hq; auto; lia.
  - apply Hq; auto; lia.
  - apply Hq; auto; lia.
Qed.

Lemma round_half_even_lower (x : Q) (k : Z) :
  (inject_Z k <= x)%Q -> k <= Py.round_half_even x.
Proof.
  intros H. destruct (round_half_even_near x) as [_ Hup].
  assert (Hlt : (inject_Z k < inject_Z (Py.round_half_even x + 1))%Q).
  { rewrite inject_Z_plus. change (inject_Z 1) with 1%Q. lra. }
  rewrite <- Zlt_Qlt in Hlt. lia.
Qed.

Lemma round_half_even_upper (x : Q) (k : Z) :
  (x <= inject_Z k)%Q -> Py.round_half_even x <= k.
Proof.
  intros H. destruct (round_half_even_near x) as [Hlow _].
  assert (Hlt : (inject_Z (Py.round_half_even x - 1) < inject_Z k)%Q).
  { unfold Z.sub. rewrite inject_Z_plus, inject_Z_opp. change (inject_Z 1) with 1%Q. lra. }
  rewrite <- Zlt_Qlt in Hlt. lia.
Qed.

End RoundingFacts.

Section ProbeExtras.
Context (cfg : Config).

(** X1.  What [/ready] answers (status and page) depends on the clock and
    the configuration only, never on [READY] or [HEALTHY].  It is 200
    exactly from the gate on; before the gate it is 503 exactly when
    [STARTUP_DELAY] converts to a float and 500 exactly when it does not.
    The handler never changes [HEALTHY], and changes nothing unless it
    answers 200. *)
Theorem readiness_answer_ignores_flags (now : Q) (st st' : State) :
  snd (Probe.readiness cfg now st) = snd (Probe.readiness cfg now st')
  /\ (status_code (snd (Probe.readiness cfg now st)) = 200
      <-> (APP_START_TIME cfg + inject_Z (STARTUP_DELAY cfg) <= now)%Q)
  /\ (status_code (snd (Probe.readiness cfg now st)) = 503
      <-> (now < APP_START_TIME cfg + inject_Z (STARTUP_DELAY cfg))%Q
          /\ exists d, Py.float_of_int (STARTUP_DELAY cfg) = Py.Ok d)
  /\ (status_code (snd (Probe.readiness cfg now st)) = 500
      <-> (now < APP_START_TIME cfg + inject_Z (STARTUP_DELAY cfg))%Q
          /\ exists e, Py.float_of_int (STARTUP_DELAY cfg) = Py.Raise e)
  /\ HEALTHY (fst (Probe.readiness cfg now st)) = HEALTHY st
  /\ (status_code (snd (Probe.readiness cfg now st)) <> 200 ->
      fst (Probe.readiness cfg now st) = st).
Proof.
  destruct (Qlt_le_dec now (APP_START_TIME cfg + inject_Z (STARTUP_DELAY cfg)))
    as [Hlt|Hle].
  - destruct (Py.float_of_int (STARTUP_DELAY cfg)) as [d|e] eqn:E.
    + rewrite !(readiness_locked cfg now _ d Hlt E). simpl.
      split; [reflexivity|]. split; [|split; [|split; [|split]]].
      * split; [discriminate|]. intros H. exfalso. lra.
      * split; [intros _; split; [exact Hlt|eexists; reflexivity]|reflexivity].
      * split; [discriminate|]. intros [_ [e H]]. discriminate.
      * reflexivity.
      * reflexivity.
    + rewrite !(readiness_overflow cfg now _ e Hlt E). simpl.
      split; [reflexivity|]. split; [|split; [|split; [|split]]].
      * split; [discriminate|]. intros H. exfalso. lra.
      * split; [discriminate|]. intros [_ [d H]]. discriminate.
      * split; [intros _; split; [exact Hlt|eexists; reflexivity]|reflexivity].
      * reflexivity.
      * reflexivity.
  - rewrite !(readiness_open cfg now _ Hle). simpl.
    split; [reflexivity|]. split; [|split; [|split; [|split]]].
    + split; auto.
    + split; [discriminate|]. intros [H _]. exfalso. lra.
    + split; [discriminate|]. intros [H _]. exfalso. lra.
    + reflexivity.
    + intros H. contradiction.
Qed.

(** X2.  Before the gate, for a delay of at most 53 bits and a difference
    [STARTUP_DELAY - elapsed] that is a binary64 number (as it is for the
    readings of a present-day clock), the remaining time shown by [/ready],
    in tenths of a second, is never negative, is within half a tenth of the
    true remaining time, and does not exceed the configured delay when the
    clock has not gone back behind the process start. *)
Theorem readiness_remaining_bounds (now : Q) (st : State) :
  (now < APP_START_TIME cfg + inject_Z (STARTUP_DELAY cfg))%Q ->
  Z.abs (STARTUP_DELAY cfg) < 2 ^ 53 ->
  (Py.fl (inject_Z (STARTUP_DELAY cfg) - (now - APP_START_TIME cfg))
   == inject_Z (STARTUP_DELAY cfg) - (now - APP_START_TIME cfg))%Q ->
  exists remaining : Z,
    snd (Probe.readiness cfg now st)
    = HTMLResponse (NotReadyYetPage remaining (POD_NAME cfg)) 503
    /\ 0 <= remaining
    /\ (inject_Z remaining - (1 # 2)
        <= 10 * (APP_START_TIME cfg + inject_Z (STARTUP_DELAY cfg) - now))%Q
    /\ (10 * (APP_START_TIME cfg + inject_Z (STARTUP_DELAY cfg) - now)
        <= inject_Z remaining + (1 # 2))%Q
    /\ ((APP_START_TIME cfg <= now)%Q -> remaining <= 10 * STARTUP_DELAY cfg).
Proof.
  intros Hlt Hsmall Hexact.
  rewrite (readiness_locked_exact cfg now st Hlt Hsmall Hexact). simpl.
  eexists. split; [reflexivity|].
  set (x := ((inject_Z (STARTUP_DELAY cfg) - (now - APP_START_TIME cfg)) * 10)%Q).
  unfold Py.round1. fold x.
  destruct (round_half_even_near x) as [Hlow Hup].
  assert (Hx : (x == 10 * (APP_START_TIME cfg + inject_Z (STARTUP_DELAY cfg) - now))%Q)
    by (unfold x; ring).
  split; [|split; [|split]].
  - apply round_half_even_lower. change (inject_Z 0) with 0%Q. lra.
  - lra.
  - lra.
  - intros Hstart. apply round_half_even_upper.
    rewrite inject_Z_mult. change (inject_Z 10) with 10%Q. lra.
Qed.

(** X3.  Before 2 seconds have elapsed [/startup] answers 503 and leaves
    the globals alone; the remaining time it shows, in tenths, is never
    negative and at most 2.0 when the clock has not gone back behind the
    process start. *)
Theorem startup_before_window (now : Q) (st : State) :
  (now < APP_START_TIME cfg + 2)%Q ->
  exists remaining : Z,
    Probe.startup cfg now st = (st, HTMLResponse (StartingUpPage remaining) 503)
    /\ 0 <= remaining
    /\ ((APP_START_TIME cfg <= now)%Q -> remaining <= 20).
Proof.
  intros Hlt.
  assert (Hb : Py.Qlt_bool (Probe.elapsed_at cfg now) 2 = true)
    by (apply Qlt_bool_iff, elapsed_lt_iff; exact Hlt).
  unfold Probe.startup. rewrite Hb.
  eexists. split; [reflexivity|].
  unfold Py.round1, Probe.elapsed_at. split.
  - apply round_half_even_lower. change (inject_Z 0) with 0%Q. lra.
  - intros Hstart. apply round_half_even_upper. change (inject_Z 20) with 20%Q. lra.
Qed.

(** X5.  When the configured delay is at least the 2-second window, a 200
    from [/ready] means [/startup] answers 200 at that reading of the clock
    and at every later one, whatever the globals are. *)
Theorem ready_implies_started (now now' : Q) (st st' : State) :
  2 <= STARTUP_DELAY cfg ->
  status_code (snd (Probe.readiness cfg now st)) = 200 ->
  (now <= now')%Q ->
  status_code (snd (Probe.startup cfg now' st')) = 200.
Proof.
  intros Hd Hready Hle.
  destruct (Qlt_le_dec now (APP_START_TIME cfg + inject_Z (STARTUP_DELAY cfg)))
    as [Hlt|Hge].
  - destruct (readiness_cases cfg now st) as [[Hb _]|[_ (resp & Hresp & Hst)]].
    + apply Qlt_bool_false_iff, elapsed_ge_iff in Hb. exfalso. lra.
    + rewrite Hresp in Hready. simpl in Hready.
      destruct Hst as [[H _]|[-> _]]; [congruence|discriminate].
  - rewrite Zle_Qle in Hd. change (inject_Z 2) with 2%Q in Hd.
    rewrite startup_open; [reflexivity|lra].
Qed.

(** X6.  Each toggle undoes itself, the two toggles commute, and each
    leaves the other flag alone. *)
Theorem toggles_involutive_and_commute (st : State) :
  fst (Probe.toggle_health cfg (fst (Probe.toggle_health cfg st))) = st
  /\ fst (Probe.toggle_ready cfg (fst (Probe.toggle_ready cfg st))) = st
  /\ fst (Probe.toggle_health cfg (fst (Probe.toggle_ready cfg st)))
     = fst (Probe.toggle_ready cfg (fst (Probe.toggle_health cfg st)))
  /\ READY (fst (Probe.toggle_health cfg st)) = READY st
  /\ HEALTHY (fst (Probe.toggle_ready cfg st)) = HEALTHY st.
Proof.
  destruct st as [r h]. simpl. rewrite !negb_involutive. repeat split.
Qed.

(** X7.  [/toggle-health] answers 200 and its page names the state the next
    [/healthz] will report: "HEALTHY" (class "ok") exactly when that probe
    answers 200, "UNHEALTHY" (class "fail") exactly when it answers 503. *)
Theorem toggle_health_page_matches_next_probe (st : State) :
  status_code (snd (Probe.toggle_health cfg st)) = 200
  /\ ((content (snd (Probe.toggle_health cfg st))
       = HealthToggledPage "ok" "HEALTHY" (POD_NAME cfg) (NAMESPACE cfg)
       /\ forall now,
           status_code (snd (Probe.liveness cfg now (fst (Probe.toggle_health cfg st))))
           = 200)
      \/ (content (snd (Probe.toggle_health cfg st))
          = HealthToggledPage "fail" "UNHEALTHY" (POD_NAME cfg) (NAMESPACE cfg)
          /\ forall now,
              status_code (snd (Probe.liveness cfg now (fst (Probe.toggle_health cfg st))))
              = 503)).
Proof.
  split; [reflexivity|].
  unfold Probe.toggle_health, Probe.liveness. simpl.
  destruct (HEALTHY st); simpl; [right|left]; split; reflexivity.
Qed.

End ProbeExtras.

(** X4.  [/startup] looks at the clock and the start time only: two
    processes started at the same reading answer alike whatever their
    configured readiness delay, names and flags. *)
Theorem startup_ignores_delay_and_flags (cfg cfg' : Config) (now : Q) (st st' : State) :
  APP_START_TIME cfg = APP_START_TIME cfg' ->
  snd (Probe.startup cfg now st) = snd (Probe.startup cfg' now st').
Proof.
  intros H. unfold Probe.startup, Probe.elapsed_at. rewrite H.
  destruct (Py.Qlt_bool _ _); reflexivity.
Qed.

Section RunExtras.
Context (cfg : Config).

Lemma run_app_fst (evs1 evs2 : list (Q * App.Request)) : forall st,
  fst (App.run cfg st (evs1 ++ evs2))
  = fst (App.run cfg (fst (App.run cfg st evs1)) evs2).
Proof.
  induction evs1 as [|ev evs1 IH]; intros st; [reflexivity|].
  rewrite <- app_comm_cons, !run_cons_fst. apply IH.
Qed.

(** Only [/toggle-ready] and an open [/ready] assign [READY]. *)
Lemma handle_READY (st : State) (now : Q) (req : App.Request) :
  READY (fst (App.handle cfg st (now, req)))
  = if App.is_toggle_ready req then negb (READY st)
    else if App.is_ready req
         then (if Py.Qlt_bool (Probe.elapsed_at cfg now) (inject_Z (STARTUP_DELAY cfg))
               then READY st else true)
         else READY st.
Proof.
  destruct req; simpl; try reflexivity.
  - unfold Probe.liveness. destruct (negb (HEALTHY st)); reflexivity.
  - destruct (readiness_cases cfg now st) as [[-> ->]|[-> (resp & -> & _)]];
      reflexivity.
  - unfold Probe.startup. destruct (Py.Qlt_bool _ _); reflexivity.
Qed.

Lemma run_READY_locked (evs : list (Q * App.Request)) : forall st,
  Forall (fun ev => App.is_ready (snd ev) = true ->
                    (fst ev < APP_START_TIME cfg + inject_Z (STARTUP_DELAY cfg))%Q) evs ->
  READY (fst (App.run cfg st evs))
  = xorb (READY st) (Nat.odd (App.calls App.is_toggle_ready evs)).
Proof.
  induction evs as [|[now req] evs IH]; intros st Hall.
  - simpl. destruct (READY st); reflexivity.
  - apply Forall_cons in Hall. destruct Hall as [Hev Hall]. simpl in Hev.
    rewrite run_cons_fst, (IH _ Hall), handle_READY, calls_cons. simpl snd.
    destruct (App.is_toggle_ready req) eqn:Et.
    + change (1 + ?n)%nat with (S n). rewrite Nat.odd_succ, <- Nat.negb_odd.
      destruct (READY st), (Nat.odd _); reflexivity.
    + destruct (App.is_ready req) eqn:Er; [|reflexivity].
      specialize (Hev eq_refl).
      apply elapsed_lt_iff, Qlt_bool_iff in Hev. rewrite Hev. reflexivity.
Qed.

(** X8.  Over requests among which no [/ready] arrives with the gate open,
    [READY] ends as its initial value XOR "the number of [/toggle-ready]
    calls is odd"; and when such requests follow a [/ready] served with the
    gate open, after whatever came before, [READY] ends as true XOR that
    parity: the flag counts the toggles since the last readiness query that
    passed. *)
Theorem READY_follows_toggles_between_queries (post : list (Q * App.Request)) :
  Forall (fun ev => App.is_ready (snd ev) = true ->
                    (fst ev < APP_START_TIME cfg + inject_Z (STARTUP_DELAY cfg))%Q) post ->
  (forall st,
      READY (fst (App.run cfg st post))
      = xorb (READY st) (Nat.odd (App.calls App.is_toggle_ready post)))
  /\ (forall st pre t,
      (APP_START_TIME cfg + inject_Z (STARTUP_DELAY cfg) <= t)%Q ->
      READY (fst (App.run cfg st (pre ++ (t, App.GET_ready) :: post)))
      = negb (Nat.odd (App.calls App.is_toggle_ready post))).
Proof.
  intros Hall. split.
  - intros st. apply run_READY_locked. exact Hall.
  - intros st pre t Ht.
    rewrite run_app_fst, run_cons_fst, (run_READY_locked post _ Hall).
    simpl App.handle. rewrite (readiness_open cfg t _ Ht). reflexivity.
Qed.

(** X9.  Every answer is 200, 503 or 500.  A 500 comes only from [/] or
    [/info], exactly when the lookup of the pod's own address raises, or from
    [/ready], exactly when it is asked before the gate and [STARTUP_DELAY]
    does not convert to a float; a 503 comes only from the three probes.
    The toggles and [/stress] always answer 200. *)
Theorem server_error_only_from_pages (st : State) (now : Q) (req : App.Request) :
  (status_code (snd (App.handle cfg st (now, req))) = 200
   \/ status_code (snd (App.handle cfg st (now, req))) = 503
   \/ status_code (snd (App.handle cfg st (now, req))) = 500)
  /\ (status_code (snd (App.handle cfg st (now, req))) = 500
      <-> (exists w e, (req = App.GET_index w \/ req = App.GET_info w)
                       /\ gethostbyname_self w = Py.Raise e)
          \/ (req = App.GET_ready
              /\ (now < APP_START_TIME cfg + inject_Z (STARTUP_DELAY cfg))%Q
              /\ exists e, Py.float_of_int (STARTUP_DELAY cfg) = Py.Raise e))
  /\ (status_code (snd (App.handle cfg st (now, req))) = 503 ->
      req = App.GET_healthz \/ req = App.GET_ready \/ req = App.GET_startup).
Proof.
  assert (Hno : forall (P : World -> Py.exn -> Prop) (R : Prop),
             (forall w, req <> App.GET_index w) -> (forall w, req <> App.GET_info w) ->
             req <> App.GET_ready ->
             ~ ((exists w e, (req = App.GET_index w \/ req = App.GET_info w) /\ P w e)
                \/ (req = App.GET_ready /\ R))).
  { intros P R H1 H2 H3 [(w & e & [H|H] & _)|[H _]];
      [apply (H1 w H)|apply (H2 w H)|apply (H3 H)]. }
  destruct req as [| | |w|w| | |finished]; simpl.
  - unfold Probe.liveness. destruct (negb (HEALTHY st)); simpl;
      (split; [auto|]); (split; [|auto]);
      (split; [discriminate|]); intros H; exfalso; revert H; apply Hno; discriminate.
  - destruct (Qlt_le_dec now (APP_START_TIME cfg + inject_Z (STARTUP_DELAY cfg)))
      as [Hlt|Hle].
    + destruct (Py.float_of_int (STARTUP_DELAY cfg)) as [d|e] eqn:E.
      * rewrite (readiness_locked cfg now st d Hlt E). simpl.
        split; [auto|]. split; [|auto]. split; [discriminate|].
        intros [(w & e & [H|H] & _)|(_ & _ & e & H)]; discriminate.
      * rewrite (readiness_overflow cfg now st e Hlt E). simpl.
        split; [auto|]. split; [|discriminate]. split; [|reflexivity].
        intros _. right. split; [reflexivity|]. split; [exact Hlt|].
        exists e. reflexivity.
    + rewrite (readiness_open cfg now st Hle). simpl.
      split; [auto|]. split; [|discriminate]. split; [discriminate|].
      intros [(w & e & [H|H] & _)|(_ & H & _)]; [discriminate|discriminate|].
      exfalso. lra.
  - unfold Probe.startup. destruct (Py.Qlt_bool _ _); simpl;
      (split; [auto|]); (split; [|auto]);
      (split; [discriminate|]); intros H; exfalso; revert H; apply Hno; discriminate.
  - unfold Probe.index. destruct (gethostbyname_self w) as [ip|e] eqn:E; simpl.
    + split; [auto|]. split; [|discriminate].
      split; [discriminate|].
      intros [(w' & e & [H|H] & He)|[H _]]; [|discriminate|discriminate].
      injection H as <-. congruence.
    + split; [auto|]. split; [|discriminate].
      split; [|reflexivity]. intros _. left. exists w, e. auto.
  - unfold Probe.info. destruct (gethostbyname_self w) as [ip|e] eqn:E; simpl.
    + split; [auto|]. split; [|discriminate].
      split; [discriminate|].
      intros [(w' & e & [H|H] & He)|[H _]]; [discriminate| |discriminate].
      injection H as <-. congruence.
    + split; [auto|]. split; [|discriminate].
      split; [|reflexivity]. intros _. left. exists w, e. auto.
  - split; [auto|]. split; [|discriminate].
    split; [discriminate|]. intros H; exfalso; revert H; apply Hno; discriminate.
  - split; [auto|]. split; [|discriminate].
    split; [discriminate|]. intros H; exfalso; revert H; apply Hno; discriminate.
  - split; [auto|]. split; [|discriminate].
    split; [discriminate|]. intros H; exfalso; revert H; apply Hno; discriminate.
Qed.

End RunExtras.

(* ================================================================== *)
(** * Further properties of peer discovery *)
(* ================================================================== *)

Section SortedUnique.
Context {A : Type} (key : A -> string).

Lemma NoDup_key_inj (l : list A) (x y : A) :
  NoDup (map key l) -> x ∈ l -> y ∈ l -> key x = key y -> x = y.
Proof.
  induction l as [|z l IH]; intros Hnd Hx Hy Hk; [inversion Hx|].
  simpl in Hnd. apply NoDup_cons in Hnd. destruct Hnd as [Hz Hnd].
  apply elem_of_cons in Hx, Hy.
  destruct Hx as [->|Hx], Hy as [->|Hy]; auto.
  - exfalso. apply Hz. rewrite Hk. apply list_elem_of_fmap. exists y. auto.
  - exfalso. apply Hz. rewrite <- Hk. apply list_elem_of_fmap. exists x. auto.
Qed.

(** With distinct keys the sorted list does not depend on the order of the
    input. *)
Lemma sorted_perm_unique (l1 l2 : list A) :
  NoDup (map key l1) -> l1 ≡ₚ l2 -> Py.sorted key l1 = Py.sorted key l2.
Proof.
  intros Hnd Hperm.
  apply (StronglySorted_unique_strong (Py.key_le key)).
  - intros x1 x2 H1 H2 H12 H21.
    apply sorted_elem_of in H1, H2. rewrite <- Hperm in H2.
    apply (NoDup_key_inj l1); auto. apply str_le_antisym; assumption.
  - apply sorted_StronglySorted.
  - apply sorted_StronglySorted.
  - rewrite !sorted_perm. exact Hperm.
Qed.

End SortedUnique.

Section DnsExtras.
Context (cfg : Config).

Lemma dns_success (w : World) (my_ip : string) (results : list addrinfo) :
  gethostbyname_self w = Py.Ok my_ip ->
  getaddrinfo w (Discovery.dns_name cfg) 8000 = Py.Ok results ->
  exists ips : list string,
    Discovery._discover_via_dns cfg w
    = Py.Ok (map (Discovery.dns_peer my_ip) (Py.sorted (fun a => a) ips))
    /\ NoDup ips
    /\ (forall x, x ∈ ips <-> x ∈ Discovery.addresses results).
Proof.
  intros Hip Hres.
  destruct (dns_loop_spec my_ip results) as (ips & Hloop & Hnd & Hmem).
  exists ips. split; [|auto].
  unfold Discovery._discover_via_dns. rewrite Hip. simpl. rewrite Hres, Hloop.
  f_equal. apply (sorted_map (Discovery.dns_peer my_ip) peer_ip).
Qed.

Lemma self_count (my_ip : string) (l : list string) :
  NoDup l ->
  length (filter (fun p => peer_is_self p = true) (map (Discovery.dns_peer my_ip) l))
  = if bool_decide (my_ip ∈ l) then 1%nat else 0%nat.
Proof.
  induction 1 as [|x l Hx Hnd IH]; [reflexivity|].
  simpl map. rewrite filter_cons. simpl peer_is_self.
  destruct (String.eqb x my_ip) eqn:E.
  - apply String.eqb_eq in E. subst x.
    rewrite decide_True by reflexivity. simpl. rewrite IH.
    rewrite (bool_decide_eq_false_2 _ Hx).
    rewrite bool_decide_eq_true_2 by (apply elem_of_cons; auto). reflexivity.
  - rewrite decide_False by discriminate. rewrite IH.
    apply String.eqb_neq in E.
    destruct (bool_decide (my_ip ∈ l)) eqn:B.
    + apply bool_decide_eq_true in B.
      rewrite bool_decide_eq_true_2 by (apply elem_of_cons; auto). reflexivity.
    + apply bool_decide_eq_false in B.
      rewrite bool_decide_eq_false_2; [reflexivity|].
      rewrite elem_of_cons. intros [H|H]; [congruence|contradiction].
Qed.

(** X10.  Strategy B's outcome depends only on the set of addresses the
    resolver returns: two answers listing the same addresses, in any order,
    with any repetitions, ports and other fields, give the same result. *)
Theorem dns_discovery_depends_on_address_set
    (w w' : World) (results results' : list addrinfo) :
  gethostbyname_self w = gethostbyname_self w' ->
  getaddrinfo w (Discovery.dns_name cfg) 8000 = Py.Ok results ->
  getaddrinfo w' (Discovery.dns_name cfg) 8000 = Py.Ok results' ->
  (forall a, a ∈ Discovery.addresses results <-> a ∈ Discovery.addresses results') ->
  Discovery._discover_via_dns cfg w = Discovery._discover_via_dns cfg w'.
Proof.
  intros Hip Hres Hres' Hsame.
  destruct (gethostbyname_self w) as [my_ip|e] eqn:E.
  - symmetry in Hip.
    destruct (dns_success w my_ip results E Hres) as (ips & -> & Hnd & Hmem).
    destruct (dns_success w' my_ip results' Hip Hres') as (ips' & -> & Hnd' & Hmem').
    do 2 f_equal. apply sorted_perm_unique.
    + rewrite map_id. exact Hnd.
    + apply NoDup_Permutation; auto.
      intros x. rewrite Hmem, Hmem'. apply Hsame.
  - unfold Discovery._discover_via_dns. rewrite E, <- Hip. reflexivity.
Qed.

(** X11.  In Strategy B's result at most one record is marked as self:
    exactly one when the local address is among the resolved addresses,
    none otherwise. *)
Theorem dns_at_most_one_self (w : World) (my_ip : string) (results : list addrinfo) :
  gethostbyname_self w = Py.Ok my_ip ->
  getaddrinfo w (Discovery.dns_name cfg) 8000 = Py.Ok results ->
  exists peers : list Peer,
    Discovery._discover_via_dns cfg w = Py.Ok peers
    /\ length (filter (fun p => peer_is_self p = true) peers)
       = if bool_decide (my_ip ∈ Discovery.addresses results) then 1%nat else 0%nat.
Proof.
  intros Hip Hres.
  destruct (dns_success w my_ip results Hip Hres) as (ips & Hdns & Hnd & Hmem).
  eexists. split; [exact Hdns|].
  rewrite self_count by (rewrite (sorted_perm _ _); exact Hnd).
  rewrite (bool_decide_ext (my_ip ∈ Py.sorted (fun a => a) ips)
             (my_ip ∈ Discovery.addresses results)); [reflexivity|].
  rewrite sorted_elem_of. apply Hmem.
Qed.

(** X12.  Strategy B returns as many records as there are distinct
    addresses in the resolver's answer, hence no more than the answer has
    entries; an empty answer gives an empty result. *)
Theorem dns_result_length (w : World) (my_ip : string) (results : list addrinfo) :
  gethostbyname_self w = Py.Ok my_ip ->
  getaddrinfo w (Discovery.dns_name cfg) 8000 = Py.Ok results ->
  exists peers : list Peer,
    Discovery._discover_via_dns cfg w = Py.Ok peers
    /\ length peers = size (list_to_set (Discovery.addresses results) : gset string)
    /\ (length peers <= length results)%nat
    /\ (results = [] -> peers = []).
Proof.
  intros Hip Hres.
  destruct (dns_success w my_ip results Hip Hres) as (ips & Hdns & Hnd & Hmem).
  eexists. split; [exact Hdns|].
  rewrite length_map, (Permutation_length (sorted_perm (fun a => a) ips)).
  split; [|split].
  - rewrite <- (size_list_to_set (C := gset string) ips Hnd).
    f_equal. apply set_eq. intros x. rewrite !elem_of_list_to_set. apply Hmem.
  - replace (length results) with (length (Discovery.addresses results))
      by (unfold Discovery.addresses; apply length_map).
    apply submseteq_length, NoDup_submseteq; [exact Hnd|].
    intros x Hx. apply Hmem. exact Hx.
  - intros ->. destruct ips as [|x ips]; [reflexivity|].
    exfalso. assert (H : x ∈ Discovery.addresses []) by (apply Hmem; left).
    inversion H.
Qed.

(** X13.  The composed call raises exactly when Strategy A yields nothing
    and either the lookup of the local address raises or the resolver
    raises something other than [gaierror]; it never raises when Strategy A
    yields records. *)
Theorem fetch_raises_iff (w : World) :
  (exists e, Discovery._fetch_peer_pods cfg w = Py.Raise e)
  <-> Discovery._discover_via_k8s_api cfg w = []
      /\ ((exists e, gethostbyname_self w = Py.Raise e)
          \/ (exists e, getaddrinfo w (Discovery.dns_name cfg) 8000 = Py.Raise e
                        /\ e <> Py.gaierror)).
Proof.
  unfold Discovery._fetch_peer_pods.
  destruct (Discovery._discover_via_k8s_api cfg w) as [|p peers]; simpl.
  - unfold Discovery._discover_via_dns.
    destruct (gethostbyname_self w) as [ip|e0]; simpl.
    + destruct (getaddrinfo w (Discovery.dns_name cfg) 8000) as [results|e1].
      * split; [intros [e H]; discriminate|].
        intros [_ [[e H]|[e [H _]]]]; discriminate.
      * destruct e1; split;
          try (intros [e H]; discriminate);
          try (intros _; split; [reflexivity|]; right; eexists; split;
               [reflexivity|discriminate]);
          try (intros _; eexists; reflexivity).
        intros [_ [[e H]|[e [H Hne]]]]; [discriminate|].
        injection H as <-. contradiction.
    + split; [|intros _; eexists; reflexivity].
      intros _. split; [reflexivity|]. left. eexists. reflexivity.
  - split; [intros [e H]; discriminate|intros [H _]; discriminate].
Qed.

(** X14.  When the API call and the local lookup succeed, Strategy A
    returns one record per listed pod, and, pod names being distinct, the
    same list whatever the order in which the API lists the pods. *)
Theorem k8s_result_order_independent
    (w w' : World) (my_ip : string) (pods pods' : list V1Pod) :
  K8S_AVAILABLE cfg = true ->
  list_namespaced_pod w (NAMESPACE cfg) "app=demo" = Py.Ok pods ->
  list_namespaced_pod w' (NAMESPACE cfg) "app=demo" = Py.Ok pods' ->
  gethostbyname_self w = Py.Ok my_ip ->
  gethostbyname_self w' = Py.Ok my_ip ->
  pods ≡ₚ pods' ->
  NoDup (map metadata_name pods) ->
  Discovery._discover_via_k8s_api cfg w = Discovery._discover_via_k8s_api cfg w'
  /\ length (Discovery._discover_via_k8s_api cfg w) = length pods.
Proof.
  intros Hav Hpods Hpods' Hip Hip' Hperm Hnd.
  unfold Discovery._discover_via_k8s_api.
  rewrite Hav, Hpods, Hpods'. simpl. rewrite Hip, Hip'. simpl. split.
  - apply sorted_perm_unique.
    + rewrite map_map. exact Hnd.
    + apply Permutation_map. exact Hperm.
  - rewrite (Permutation_length (sorted_perm _ _)). apply length_map.
Qed.

End DnsExtras.

(* ================================================================== *)
(** * Further properties of the environment dump and the configuration *)
(* ================================================================== *)

Section MaskingExtras.

Lemma upper_char_idem (c : ascii) : Py.upper (Py.upper_char c) = Py.upper_char c.
Proof. destruct c as [[] [] [] [] [] [] [] []]; vm_compute; reflexivity. Qed.

Lemma upper_idem (s : string) : Py.upper (Py.upper s) = Py.upper s.
Proof.
  induction s as [|c s IH]; [reflexivity|].
  rewrite upper_cons, upper_app, upper_char_idem, IH. reflexivity.
Qed.

Lemma contains_extend (needle pre hay post : string) :
  Py.contains needle hay = true ->
  Py.contains needle (pre +:+ hay +:+ post) = true.
Proof.
  rewrite !contains_iff. intros (a & b & ->).
  exists (pre +:+ a), (b +:+ post). rewrite !app_assoc_str. reflexivity.
Qed.

Lemma length_app_str (s t : string) :
  String.length (s +:+ t) = (String.length s + String.length t)%nat.
Proof.
  induction s as [|c s IH]; [reflexivity|].
  rewrite app_cons. simpl. rewrite IH. reflexivity.
Qed.

Lemma slice_to_length_min (n : nat) : forall s,
  String.length (Py.slice_to n s) = Nat.min n (String.length s).
Proof.
  unfold Py.slice_to. induction n as [|n IH]; intros [|c s]; simpl; try reflexivity.
  rewrite IH. reflexivity.
Qed.

(** X15.  Masking looks at the name with its letters in upper case only:
    names that differ in case alone are treated alike, and a name that
    contains a masked name is masked too (so "MONKEY_BARS" is masked for
    its "KEY"). *)
Theorem masking_closed_under_case_and_extension (key : string) :
  Info.is_masked (Py.upper key) = Info.is_masked key
  /\ (forall key', Py.upper key' = Py.upper key ->
                   Info.is_masked key' = Info.is_masked key)
  /\ (Info.is_masked key = true ->
      forall pre post, Info.is_masked (pre +:+ key +:+ post) = true).
Proof.
  unfold Info.is_masked. split; [|split].
  - rewrite upper_idem. reflexivity.
  - intros key' H. rewrite H. reflexivity.
  - intros H pre post. apply existsb_exists in H. destruct H as (word & Hin & Hc).
    apply existsb_exists. exists word. split; [exact Hin|].
    rewrite !upper_app. apply contains_extend. exact Hc.
Qed.

(** X16.  The row of a variable that is not masked has 53 characters of
    markup, the name, and at most 100 characters of the value: its length
    is 53 + len(name) + min(100, len(value)). *)
Theorem shown_row_length (environ : gmap string string) (key value : string) :
  Info.is_masked key = false ->
  environ !! key = Some value ->
  String.length (Info.env_row environ key)
  = (53 + String.length key + Nat.min 100 (String.length value))%nat.
Proof.
  intros Hm Hv. unfold Info.env_row. rewrite Hm, lookup_total_alt, Hv.
  cbn [default from_option].
  unfold Info.shown_row. rewrite !length_app_str, slice_to_length_min.
  change (String.length "<tr><td><code>") with 14%nat.
  change (String.length "</code></td><td><code>") with 22%nat.
  change (String.length "</code></td></tr>") with 17%nat.
  unfold id. lia.
Qed.

Lemma env_rows_agree (environ environ' : gmap string string) :
  dom environ' = dom environ ->
  (forall key, ~ Info.spec_secret_like key -> environ' !! key = environ !! key) ->
  Info.env_rows environ' = Info.env_rows environ.
Proof.
  intros Hdom Hsame. rewrite !env_rows_concat. unfold Info.sorted_keys.
  rewrite Hdom. f_equal. apply map_ext. intros key.
  apply env_row_agree. apply Hsame.
Qed.

Lemma getenv_agree (environ environ' : gmap string string) (key default : string) :
  Info.is_masked key = false ->
  (forall key, ~ Info.spec_secret_like key -> environ' !! key = environ !! key) ->
  Boot.getenv environ' key default = Boot.getenv environ key default.
Proof.
  intros Hm Hsame. unfold Boot.getenv.
  rewrite (Hsame key) by (apply is_masked_false_iff; exact Hm). reflexivity.
Qed.

(** X17.  Nothing the process shows on [/info] depends on the value of a
    masked variable, from import to response: for two environments with the
    same names that agree on every variable whose name is not secret-like,
    the configuration read at import is the same (or fails alike), and so
    is the whole answer of [/info] under it. *)
Theorem info_page_ignores_secrets_end_to_end
    (int : string -> Py.result Z) (environ environ' : gmap string string)
    (start : Q) (k8s_available : bool) :
  dom environ' = dom environ ->
  (forall key, ~ Info.spec_secret_like key -> environ' !! key = environ !! key) ->
  Boot.load_config int environ' start k8s_available
  = Boot.load_config int environ start k8s_available
  /\ forall cfg cfg' now w st,
      Boot.load_config int environ start k8s_available = Py.Ok cfg ->
      Boot.load_config int environ' start k8s_available = Py.Ok cfg' ->
      Probe.info cfg' now (with_environ w environ') st
      = Probe.info cfg now (with_environ w environ) st.
Proof.
  intros Hdom Hsame.
  assert (Hcfg : Boot.load_config int environ' start k8s_available
                 = Boot.load_config int environ start k8s_available).
  { unfold Boot.load_config.
    rewrite !(getenv_agree environ environ') by (reflexivity || exact Hsame).
    reflexivity. }
  split; [exact Hcfg|].
  intros cfg cfg' now w st H H'. rewrite Hcfg, H in H'. injection H' as <-.
  unfold Probe.info, with_environ. simpl.
  rewrite (env_rows_agree environ environ' Hdom Hsame). reflexivity.
Qed.

End MaskingExtras.

(* ================================================================== *)
(** * The busy loop *)
(* ================================================================== *)

Section StressExtras.

Example sum_squares_1000 : Stress.sum_squares 1000 = 332833500.
Proof. vm_compute. reflexivity. Qed.

Lemma burn_exit (start t_exit : Q) (rest : list Q) (pre : list Q) : forall x,
  Forall (fun t => (t < start + 2)%Q) pre ->
  (start + 2 <= t_exit)%Q ->
  Stress.burn start x (pre ++ t_exit :: rest)
  = Some (x + Z.of_nat (length pre) * Stress.sum_squares 1000, rest).
Proof.
  induction pre as [|t pre IH]; intros x Hpre Hexit.
  - simpl. assert (Hb : Py.Qlt_bool (t_exit - start) 2 = false)
      by (apply Qlt_bool_false_iff; lra).
    rewrite Hb. do 2 f_equal. lia.
  - apply Forall_cons in Hpre. destruct Hpre as [Ht Hpre].
    rewrite <- app_comm_cons. cbn [Stress.burn].
    assert (Hb : Py.Qlt_bool (t - start) 2 = true) by (apply Qlt_bool_iff; lra).
    rewrite Hb, (IH _ Hpre Hexit). do 2 f_equal. simpl length. lia.
Qed.

Lemma burn_exhausted (start : Q) (ticks : list Q) : forall x,
  Forall (fun t => (t < start + 2)%Q) ticks -> Stress.burn start x ticks = None.
Proof.
  induction ticks as [|t ticks IH]; intros x Hall; [reflexivity|].
  apply Forall_cons in Hall. destruct Hall as [Ht Hall]. simpl.
  assert (Hb : Py.Qlt_bool (t - start) 2 = true) by (apply Qlt_bool_iff; lra).
  rewrite Hb. apply IH. exact Hall.
Qed.

(** X18.  [/stress] keeps looping while the clock reads less than 2 seconds
    past its first reading and answers 200 as soon as a reading reaches
    them; the duration it reports, taken from the next reading, is at least
    2.00 seconds when the clock does not go back.  While every reading stays
    below the 2 seconds the loop does not exit. *)
Theorem stress_reports_at_least_two_seconds
    (cfg : Config) (start t_exit finished : Q) (pre rest : list Q) :
  Forall (fun t => (t < start + 2)%Q) pre ->
  (start + 2 <= t_exit)%Q ->
  (t_exit <= finished)%Q ->
  (exists elapsed : Z,
      Stress.stress cfg (start :: pre ++ t_exit :: finished :: rest)
      = Some (HTMLResponse (StressPage (POD_NAME cfg) elapsed (NAMESPACE cfg)) 200)
      /\ 200 <= elapsed)
  /\ Stress.stress cfg (start :: pre) = None.
Proof.
  intros Hpre Hexit Hmono. split.
  - eexists. unfold Stress.stress.
    rewrite (burn_exit start t_exit (finished :: rest) pre 0 Hpre Hexit).
    split; [reflexivity|].
    unfold Py.round2. apply round_half_even_lower.
    change (inject_Z 200) with 200%Q. lra.
  - unfold Stress.stress. rewrite (burn_exhausted start pre 0 Hpre). reflexivity.
Qed.

End StressExtras.

(* ================================================================== *)
(** * Instances of the further properties *)
(* ================================================================== *)

(** X2 at 3.25 s of a 5-second delay: 1.75 is a binary64 number, and 18
    tenths are shown (17.5 rounds to the even neighbour). *)
Lemma readiness_remaining_bounds_witness :
  let cfg := default_config 0 in
  let now := (13 # 4)%Q in
  (now < APP_START_TIME cfg + inject_Z (STARTUP_DELAY cfg))%Q
  /\ Z.abs (STARTUP_DELAY cfg) < 2 ^ 53
  /\ (Py.fl (inject_Z (STARTUP_DELAY cfg) - (now - APP_START_TIME cfg))
      == inject_Z (STARTUP_DELAY cfg) - (now - APP_START_TIME cfg))%Q
  /\ exists remaining : Z,
      snd (Probe.readiness cfg now initial_state)
      = HTMLResponse (NotReadyYetPage remaining (POD_NAME cfg)) 503
      /\ 0 <= remaining
      /\ remaining <= 10 * STARTUP_DELAY cfg.
Proof.
  intros cfg now.
  assert (Hlt : (now < APP_START_TIME cfg + inject_Z (STARTUP_DELAY cfg))%Q) by closed_Q.
  assert (Hsmall : Z.abs (STARTUP_DELAY cfg) < 2 ^ 53) by (vm_compute; reflexivity).
  assert (Hexact : (Py.fl (inject_Z (STARTUP_DELAY cfg) - (now - APP_START_TIME cfg))
                    == inject_Z (STARTUP_DELAY cfg) - (now - APP_START_TIME cfg))%Q)
    by (vm_compute; reflexivity).
  split; [exact Hlt|]. split; [exact Hsmall|]. split; [exact Hexact|].
  destruct (readiness_remaining_bounds cfg now initial_state Hlt Hsmall Hexact)
    as (remaining & Hresp & Hnonneg & _ & _ & Hmax).
  exists remaining. split; [exact Hresp|]. split; [exact Hnonneg|].
  apply Hmax. closed_Q.
Defined.

(** X3 at 0.5 s. *)
Lemma startup_before_window_witness :
  let cfg := default_config 0 in
  ((1 # 2) < APP_START_TIME cfg + 2)%Q
  /\ exists remaining : Z,
      Probe.startup cfg (1 # 2) initial_state
      = (initial_state, HTMLResponse (StartingUpPage remaining) 503)
      /\ 0 <= remaining
      /\ remaining <= 20.
Proof.
  intros cfg.
  assert (Hlt : ((1 # 2) < APP_START_TIME cfg + 2)%Q) by closed_Q.
  split; [exact Hlt|].
  destruct (startup_before_window cfg (1 # 2) initial_state Hlt)
    as (remaining & Hresp & Hnonneg & Hmax).
  exists remaining. split; [exact Hresp|]. split; [exact Hnonneg|].
  apply Hmax. closed_Q.
Defined.

(** X4 for the default and the slow configuration, both started at 0. *)
Lemma startup_ignores_delay_and_flags_witness :
  APP_START_TIME (default_config 0) = APP_START_TIME slow_config
  /\ snd (Probe.startup (default_config 0) 1 initial_state)
     = snd (Probe.startup slow_config 1 {| READY := true; HEALTHY := false |}).
Proof.
  split; [reflexivity|].
  apply (startup_ignores_delay_and_flags (default_config 0) slow_config 1%Q
           initial_state {| READY := true; HEALTHY := false |} eq_refl).
Defined.

(** X5 for the default delay: ready at 5 s, started at 6 s. *)
Lemma ready_implies_started_witness :
  let cfg := default_config 0 in
  2 <= STARTUP_DELAY cfg
  /\ status_code (snd (Probe.readiness cfg 5 initial_state)) = 200
  /\ (5 <= 6)%Q
  /\ status_code (snd (Probe.startup cfg 6 {| READY := false; HEALTHY := false |})) = 200.
Proof.
  intros cfg.
  assert (Hd : 2 <= STARTUP_DELAY cfg) by (simpl; lia).
  assert (Hr : status_code (snd (Probe.readiness cfg 5 initial_state)) = 200)
    by reflexivity.
  assert (Hle : (5 <= 6)%Q) by closed_Q.
  split; [exact Hd|]. split; [exact Hr|]. split; [exact Hle|].
  apply (ready_implies_started cfg 5%Q 6%Q initial_state
           {| READY := false; HEALTHY := false |} Hd Hr Hle).
Defined.

(** X8 for three toggles mixed with other requests and a readiness query
    that arrives before the gate. *)
Lemma READY_follows_toggles_between_queries_witness :
  let cfg := default_config 0 in
  Forall (fun ev => App.is_ready (snd ev) = true ->
                    (fst ev < APP_START_TIME cfg + inject_Z (STARTUP_DELAY cfg))%Q)
         toggles_between_queries
  /\ READY (fst (App.run cfg initial_state toggles_between_queries)) = true
  /\ READY (fst (App.run cfg initial_state
                   ([(1%Q, App.GET_toggle_ready)] ++ (6%Q, App.GET_ready)
                      :: toggles_between_queries))) = false.
Proof.
  intros cfg.
  assert (Hall : Forall (fun ev => App.is_ready (snd ev) = true ->
                    (fst ev < APP_START_TIME cfg + inject_Z (STARTUP_DELAY cfg))%Q)
                   toggles_between_queries).
  { unfold toggles_between_queries.
    repeat (apply Forall_cons; split; [simpl; try discriminate; intros _; closed_Q|]).
    apply Forall_nil. exact I. }
  destruct (READY_follows_toggles_between_queries cfg toggles_between_queries Hall)
    as [Hlocked Hafter].
  split; [exact Hall|]. split.
  - apply (Hlocked initial_state).
  - apply (Hafter initial_state [(1%Q, App.GET_toggle_ready)] 6%Q). closed_Q.
Defined.

(** X10, X11, X12 for the resolver answers of [dns_only_world] and
    [dns_shuffled_world]. *)
Lemma dns_discovery_depends_on_address_set_witness :
  Discovery._discover_via_dns (default_config 0) dns_only_world
  = Discovery._discover_via_dns (default_config 0) dns_shuffled_world.
Proof.
  apply (dns_discovery_depends_on_address_set (default_config 0)
           dns_only_world dns_shuffled_world _ _ eq_refl eq_refl eq_refl).
  intros a. unfold Discovery.addresses. simpl.
  rewrite !elem_of_cons. tauto.
Defined.

Lemma dns_at_most_one_self_witness :
  exists peers : list Peer,
    Discovery._discover_via_dns (default_config 0) dns_only_world = Py.Ok peers
    /\ length (filter (fun p => peer_is_self p = true) peers) = 1%nat.
Proof.
  destruct (dns_at_most_one_self (default_config 0) dns_only_world "10.0.0.2" _
              eq_refl eq_refl) as (peers & Hres & Hcount).
  exists peers. split; [exact Hres|]. exact Hcount.
Defined.

Lemma dns_result_length_witness :
  exists peers : list Peer,
    Discovery._discover_via_dns (default_config 0) dns_only_world = Py.Ok peers
    /\ (length peers <= 3)%nat.
Proof.
  destruct (dns_result_length (default_config 0) dns_only_world "10.0.0.2" _
              eq_refl eq_refl) as (peers & Hres & _ & Hle & _).
  exists peers. split; [exact Hres|]. exact Hle.
Defined.

(** X14 for the two listings of pod-a and pod-b. *)
Lemma k8s_result_order_independent_witness :
  Discovery._discover_via_k8s_api (default_config 0) k8s_world
  = Discovery._discover_via_k8s_api (default_config 0) k8s_reordered_world
  /\ length (Discovery._discover_via_k8s_api (default_config 0) k8s_world) = 2%nat.
Proof.
  apply (k8s_result_order_independent (default_config 0) k8s_world k8s_reordered_world
           "10.0.0.2" _ _ eq_refl eq_refl eq_refl eq_refl eq_refl).
  - apply perm_swap.
  - simpl. apply NoDup_cons. split.
    + rewrite list_elem_of_singleton. discriminate.
    + apply NoDup_singleton.
Defined.

(** X16 for [PATH] in the sample environment. *)
Lemma shown_row_length_witness :
  String.length (Info.env_row sample_environ "PATH") = (53 + 4 + 23)%nat.
Proof.
  apply (shown_row_length sample_environ "PATH" "/usr/local/bin:/usr/bin");
    reflexivity.
Defined.

(** X17 for the sample environment before and after its credentials are
    rotated. *)
Lemma info_page_ignores_secrets_end_to_end_witness :
  Boot.load_config sample_int rotated_environ 0 true
  = Boot.load_config sample_int sample_environ 0 true.
Proof.
  apply (info_page_ignores_secrets_end_to_end sample_int sample_environ
           rotated_environ 0%Q true).
  - vm_compute. reflexivity.
  - intros key Hns. unfold rotated_environ.
    rewrite !lookup_insert_ne; [reflexivity| |]; intros <-; apply Hns;
      apply is_masked_iff; reflexivity.
Defined.

(** X18 for a clock polled every 0.7 s: two turns of the loop, exit at
    2.1 s, 2.8 s reported. *)
Lemma stress_reports_at_least_two_seconds_witness :
  exists elapsed : Z,
    Stress.stress (default_config 0) slow_clock
    = Some (HTMLResponse (StressPage "unknown-pod" elapsed "default") 200)
    /\ 200 <= elapsed.
Proof.
  apply (stress_reports_at_least_two_seconds (default_config 0)
           10%Q 12.1%Q 12.8%Q [10.7%Q; 11.4%Q] [13.5%Q]).
  - repeat (apply Forall_cons; split; [closed_Q|]). apply Forall_nil. exact I.
  - closed_Q.
  - closed_Q.
Defined.

(* ================================================================== *)
(** * Further properties of the pages *)
(* ================================================================== *)

Section PageExtras.
Context (cfg : Config).

(** X19.  When the lookup of the pod's own address succeeds, [/] answers 200
    and its peer section reflects the discovery outcome: the "unavailable"
    card exactly when discovery returned nothing, in particular whenever
    the overall timeout strikes, and otherwise a table headed by the number
    of peers with one row per peer, in discovery order. *)
Theorem index_shows_discovery_outcome (now : Q) (w : World) (ip : string) :
  gethostbyname_self w = Py.Ok ip ->
  exists uptime table,
    Probe.index cfg now w
    = Py.Ok (HTMLResponse (IndexPage cfg uptime (gethostname w) ip table) 200)
    /\ (table = PeersUnavailable <-> Discovery.get_peer_pods cfg w = [])
    /\ (within_timeout w = false -> table = PeersUnavailable)
    /\ (forall n rows, table = PeersTable n rows ->
                       rows = Discovery.get_peer_pods cfg w /\ n = length rows).
Proof.
  intros Hip. unfold Probe.index. rewrite Hip. simpl.
  eexists _, _. split; [reflexivity|].
  unfold render_peer_table.
  assert (Ht : within_timeout w = false -> Discovery.get_peer_pods cfg w = []).
  { intros H. unfold Discovery.get_peer_pods, Discovery.wait_for_fetch.
    rewrite H. reflexivity. }
  destruct (Discovery.get_peer_pods cfg w) as [|p peers]; simpl.
  - split; [tauto|]. split; [reflexivity|]. intros n rows H. discriminate.
  - split; [split; discriminate|]. split.
    + intros H. apply Ht in H. discriminate.
    + intros n rows H. injection H as <- <-. split; reflexivity.
Qed.

(** X20.  [/info] shows the flags as they are stored and [/ready] does not
    consult them: once the gate is open and [READY] is false (as after
    [/toggle-ready]), [/info] reports the pod as not ready while [/ready],
    at the same reading of the clock, answers 200. *)
Theorem info_and_ready_can_disagree (now : Q) (w : World) (ip : string) (st : State) :
  (APP_START_TIME cfg + inject_Z (STARTUP_DELAY cfg) <= now)%Q ->
  gethostbyname_self w = Py.Ok ip ->
  READY st = false ->
  (exists uptime table rows,
      Probe.info cfg now w st
      = Py.Ok (HTMLResponse
                 (InfoPage cfg uptime (gethostname w) ip (HEALTHY st) false table rows)
                 200))
  /\ status_code (snd (Probe.readiness cfg now st)) = 200.
Proof.
  intros Hgate Hip Hr. split.
  - unfold Probe.info. rewrite Hip, Hr. simpl. eexists _, _, _. reflexivity.
  - rewrite (readiness_open cfg now st Hgate). reflexivity.
Qed.

End PageExtras.

(** X19 for a world whose worker does not answer in time. *)
Lemma index_shows_discovery_outcome_witness :
  exists uptime,
    Probe.index (default_config 0) 7 hung_world
    = Py.Ok (HTMLResponse
               (IndexPage (default_config 0) uptime "pod-a" "10.0.0.2" PeersUnavailable)
               200).
Proof.
  destruct (index_shows_discovery_outcome (default_config 0) 7%Q hung_world "10.0.0.2"
              eq_refl) as (uptime & table & Hpage & _ & Htimeout & _).
  exists uptime. rewrite Hpage, (Htimeout eq_refl). reflexivity.
Defined.

(** X20 right after a toggle, past the gate. *)
Lemma info_and_ready_can_disagree_witness :
  let cfg := default_config 0 in
  let st := fst (Probe.toggle_ready cfg {| READY := true; HEALTHY := true |}) in
  (exists uptime table rows,
      Probe.info cfg 8 k8s_world st
      = Py.Ok (HTMLResponse
                 (InfoPage cfg uptime "pod-a" "10.0.0.2" true false table rows) 200))
  /\ status_code (snd (Probe.readiness cfg 8 st)) = 200.
Proof.
  intros cfg st.
  apply (info_and_ready_can_disagree cfg 8%Q k8s_world "10.0.0.2" st).
  - closed_Q.
  - reflexivity.
  - reflexivity.
Defined.
